(** * LADCP_reg.py: cast collection, depth-grid interpolation and rendering

    A shallow embedding of [src/LADCP/LADCP_reg.py].  The script's four
    functions ([get_adcp_data], [get_valid_casts], [process_casts] and
    [plot_adcp_data]) are written as functions into an exception monad; the
    NumPy, pandas and Python built-ins they call are modelled next to them,
    each under the name the script uses. *)

From Stdlib Require Import List String Ascii Bool Arith ZArith QArith Qround Lia Lqa.
From Stdlib Require Import DecimalString DecimalNat.
Import ListNotations.

Local Open Scope string_scope.
Local Open Scope list_scope.

(** ** Python exceptions and the exception monad *)

Inductive exn : Type :=
| FileNotFoundError (path : string)
| KeyError (key : string)
| ValueError (msg : string)
| IndexError (msg : string)
| UnboundLocalError (var : string).

Inductive result (A : Type) : Type :=
| Ok (a : A)
| Raise (e : exn).
Arguments Ok {A} a.
Arguments Raise {A} e.

Definition bind {A B : Type} (m : result A) (k : A -> result B) : result B :=
  match m with
  | Ok a => k a
  | Raise e => Raise e
  end.

Notation "x <- m ;; k" := (bind m (fun x => k))
  (at level 61, m at next level, right associativity).
Notation "' pat <- m ;; k" := (bind m (fun x => match x with pat => k end))
  (at level 61, pat pattern, m at next level, right associativity).

(** [for x in xs: st = body(st, x)], stopping at the first exception. *)
Fixpoint for_each {A S : Type} (body : S -> A -> result S) (xs : list A) (st : S)
  : result S :=
  match xs with
  | [] => Ok st
  | x :: xs' => st' <- body st x ;; for_each body xs' st'
  end.

(** ** float64 values

    The arrays of a cast hold NumPy float64 values.  A value is either the
    missing-value marker or a finite number; finite numbers are kept as exact
    rationals in lowest terms.  Rounding and the two infinities are outside
    the model: every operation below is exact on the finite values. *)

Inductive float64 : Type :=
| NaN
| Fin (q : Q).

Module F64.

Definition of_Z (z : Z) : float64 := Fin (inject_Z z).

Definition isnan (x : float64) : bool :=
  match x with NaN => true | Fin _ => false end.

(** Comparisons: every ordered comparison with NaN is false, [!=] is true. *)
Definition lt (x y : float64) : bool :=
  match x, y with
  | Fin a, Fin b => match (a ?= b)%Q with Lt => true | _ => false end
  | _, _ => false
  end.
Definition gt (x y : float64) : bool := lt y x.
Definition eqb (x y : float64) : bool :=
  match x, y with
  | Fin a, Fin b => Qeq_bool a b
  | _, _ => false
  end.
Definition ge (x y : float64) : bool := lt y x || eqb x y.
Definition ne (x y : float64) : bool := negb (eqb x y).

Definition lift2 (f : Q -> Q -> Q) (x y : float64) : float64 :=
  match x, y with
  | Fin a, Fin b => Fin (Qred (f a b))
  | _, _ => NaN
  end.
Definition add := lift2 Qplus.
Definition sub := lift2 Qminus.
Definition mul := lift2 Qmult.
(** A zero divisor gives an infinity or NaN in IEEE arithmetic; the only
    division of the script is the slope of [np_interp], whose divisor is
    the gap between two samples that bracket the query point. *)
Definition div (x y : float64) : float64 :=
  match x, y with
  | Fin a, Fin b => if Qeq_bool b 0%Q then NaN else Fin (Qred (a / b)%Q)
  | _, _ => NaN
  end.

End F64.

(** ** Python dictionaries

    A [dict] keeps its keys in insertion order, and the renderer iterates in
    that order, so a dictionary is an association list without repeated
    keys. *)

Definition dict (V : Type) : Type := list (string * V).

Fixpoint dict_lookup {V : Type} (k : string) (d : dict V) : option V :=
  match d with
  | [] => None
  | (k', v) :: d' => if String.eqb k k' then Some v else dict_lookup k d'
  end.

(** [d[k]] *)
Definition dict_get {V : Type} (k : string) (d : dict V) : result V :=
  match dict_lookup k d with
  | Some v => Ok v
  | None => Raise (KeyError k)
  end.

(** [d[k] = v]: an existing key keeps its place, a new key goes last. *)
Fixpoint dict_set {V : Type} (k : string) (v : V) (d : dict V) : dict V :=
  match d with
  | [] => [(k, v)]
  | (k', v') :: d' =>
      if String.eqb k k' then (k, v) :: d' else (k', v') :: dict_set k v d'
  end.

Definition keys {V : Type} (d : dict V) : list string := map fst d.
Definition items {V : Type} (d : dict V) : list (string * V) := d.

(** ** Format specifications *)

(** [f'{n}'] for a non-negative integer. *)
Definition str_of_nat (n : nat) : string :=
  NilZero.string_of_uint (Nat.to_uint n).

(** [f'{z}'] for an integer. *)
Definition str_of_Z (z : Z) : string :=
  NilZero.string_of_int (Z.to_int z).

Fixpoint zeros (k : nat) : string :=
  match k with
  | O => EmptyString
  | S k' => String "0" (zeros k')
  end.

(** [f'{n:03d}']: decimal digits, padded on the left with zeros to width 3. *)
Definition fmt_03d (n : nat) : string :=
  let s := str_of_nat n in
  (zeros (3 - String.length s) ++ s)%string.

(** ** Casts on disk: [get_adcp_data] *)

(** The record [mat_data['dr']] of one cast file: a dictionary whose keys may
    be absent; a key that is present holds an array ([p], [u], [v]) or a
    scalar ([lat], [lon]). *)
Record dr_t : Type := mk_dr {
  dr_p : option (list float64);
  dr_u : option (list float64);
  dr_v : option (list float64);
  dr_lat : option float64;
  dr_lon : option float64
}.

(** [dr[name]] *)
Definition field {A : Type} (name : string) (f : option A) : result A :=
  match f with
  | Some a => Ok a
  | None => Raise (KeyError name)
  end.

(** The files under the working directory: what
    [sio.loadmat(path, simplify_cells=True)] returns or raises for a path. *)
Definition disk : Type := string -> result (dict dr_t).

Definition get_adcp_data (fs : disk) (cast : nat) : result dr_t :=
  let file := (fmt_03d cast ++ ".mat")%string in
  let pathF := ("./processed/" ++ file)%string in
  mat_data <- fs pathF ;;
  dict_get "dr" mat_data.

(** ** The collection scan: [get_valid_casts] *)

Record scan_state : Type := mk_scan {
  valid_casts : dict dr_t;
  stdout : list string
}.

(** [except (FileNotFoundError, KeyError)] *)
Definition caught (e : exn) : bool :=
  match e with
  | FileNotFoundError _ | KeyError _ => true
  | _ => false
  end.

Definition cast_label (cast : nat) : string := ("Cast" ++ fmt_03d cast)%string.

(** The body of the [try] block. *)
Definition try_cast (fs : disk) (cast : nat) (vc : dict dr_t) : result (dict dr_t) :=
  dr <- get_adcp_data fs cast ;;
  lon <- field "lon" (dr_lon dr) ;;
  if F64.ne lon (F64.of_Z 0) && negb (cast =? 1)%nat
  then Ok (dict_set (cast_label cast) dr vc)
  else Ok vc.

(** One iteration of the loop: the [try] block and its handler, which prints
    an empty line. *)
Definition scan_cast (fs : disk) (st : scan_state) (cast : nat) : result scan_state :=
  match try_cast fs cast (valid_casts st) with
  | Ok vc => Ok (mk_scan vc (stdout st))
  | Raise e =>
      if caught e then Ok (mk_scan (valid_casts st) (stdout st ++ [""]))
      else Raise e
  end.

Definition scan (fs : disk) (last_cast : nat) : result scan_state :=
  for_each (scan_cast fs) (seq 1 last_cast) (mk_scan [] []).

Definition get_valid_casts (fs : disk) (last_cast : nat) : result (dict dr_t) :=
  st <- scan fs last_cast ;; Ok (valid_casts st).

(** ** NumPy and pandas operations used by [process_casts] *)

(** [np.arange(start, stop, step)] on integers, [step > 0]. *)
Definition np_arange_int (start stop step : Z) : list Z :=
  let len := Z.to_nat ((stop - start + step - 1) / step) in
  map (fun i => (start + Z.of_nat i * step)%Z) (seq 0 len).

(** [np.arange(start, stop, step)] with integer [start], [step > 0] and a
    float64 [stop]: [ceil((stop - start) / step)] values, none when that is
    not positive. *)
Definition np_arange (start : Z) (stop : float64) (step : Z) : result (list float64) :=
  match stop with
  | NaN => Raise (ValueError "arange: cannot compute length")
  | Fin s =>
      let len := Z.to_nat (Qceiling ((s - inject_Z start) / inject_Z step)%Q) in
      Ok (map (fun i => F64.of_Z (start + Z.of_nat i * step)) (seq 0 len))
  end.

(** [xs[mask]] *)
Fixpoint select {A : Type} (xs : list A) (mask : list bool) : list A :=
  match xs, mask with
  | x :: xs', b :: mask' => if b then x :: select xs' mask' else select xs' mask'
  | _, _ => []
  end.

(** [np.max(s)] on a pandas Series dispatches to [s.max()], which skips
    missing values and is NaN when nothing is left. *)
Definition np_max (s : list float64) : float64 :=
  fold_left (fun acc x =>
               match acc, x with
               | _, NaN => acc
               | NaN, _ => x
               | _, _ => if F64.lt acc x then x else acc
               end) s NaN.

(** [np.min(xs)] on a list: NaN as soon as one element is NaN. *)
Definition np_min (xs : list float64) : result float64 :=
  match xs with
  | [] => Raise (ValueError "zero-size array to reduction operation minimum which has no identity")
  | x :: xs' =>
      Ok (fold_left (fun acc y =>
                       if F64.isnan acc then acc
                       else if F64.isnan y then y
                       else if F64.lt y acc then y else acc) xs' x)
  end.

(** The index search of [np.interp]: [len] when the key is above the last
    sample, [-1] when it is below the first, otherwise [i - 1] for the first
    [i >= 1] with [not (key >= arr[i])].  NumPy scans like this up to four
    samples and bisects above; the two agree on a non-decreasing [arr]. *)
Fixpoint scan_ge (key : float64) (rest : list float64) (i : nat) : nat :=
  match rest with
  | [] => i
  | a :: rest' => if F64.ge key a then scan_ge key rest' (S i) else i
  end.

Definition binary_search_with_guess (key : float64) (arr : list float64) : Z :=
  let len := List.length arr in
  if F64.gt key (nth (len - 1) arr NaN) then Z.of_nat len
  else if F64.lt key (nth 0 arr NaN) then (-1)%Z
  else (Z.of_nat (scan_ge key (tl arr) 1) - 1)%Z.

Definition interp_at (dx dy : list float64) (lval rval x_val : float64) : float64 :=
  if F64.isnan x_val then x_val
  else
    let lenxp := List.length dx in
    if (lenxp =? 1)%nat then
      let xp_val := nth 0 dx NaN in
      let fp_val := nth 0 dy NaN in
      if F64.lt x_val xp_val then lval
      else if F64.gt x_val xp_val then rval else fp_val
    else
      let j := binary_search_with_guess x_val dx in
      if (j =? -1)%Z then lval
      else if (j =? Z.of_nat lenxp)%Z then rval
      else
        let jn := Z.to_nat j in
        if (j =? Z.of_nat lenxp - 1)%Z then nth jn dy NaN
        else if F64.eqb (nth jn dx NaN) x_val then nth jn dy NaN
        else
          let slope := F64.div (F64.sub (nth (S jn) dy NaN) (nth jn dy NaN))
                               (F64.sub (nth (S jn) dx NaN) (nth jn dx NaN)) in
          let r := F64.add (F64.mul slope (F64.sub x_val (nth jn dx NaN))) (nth jn dy NaN) in
          if F64.isnan r then
            let r' := F64.add (F64.mul slope (F64.sub x_val (nth (S jn) dx NaN)))
                              (nth (S jn) dy NaN) in
            if F64.isnan r' && F64.eqb (nth jn dy NaN) (nth (S jn) dy NaN)
            then nth jn dy NaN else r'
          else r.

(** [np.interp(x, xp, fp, left, right)] *)
Definition np_interp (x xp fp : list float64) (left right : float64)
  : result (list float64) :=
  if (List.length xp =? 0)%nat then Raise (ValueError "array of sample points is empty")
  else if negb (List.length fp =? List.length xp)%nat
  then Raise (ValueError "fp and xp are not of the same length.")
  else Ok (map (interp_at xp fp left right) x).

(** [np.full_like(a, fill, dtype=np.float64)] *)
Definition np_full_like {A : Type} (a : list A) (fill : float64) : list float64 :=
  repeat fill (List.length a).

(** [dst[:len(src)] = src]: the slice is cut at the end of [dst]; a source of
    another length than the slice is broadcast only when it has one element. *)
Definition assign_prefix (dst src : list float64) : result (list float64) :=
  let n := List.length src in
  if (n <=? List.length dst)%nat then Ok (src ++ skipn n dst)
  else if (n =? 1)%nat then Ok (repeat (nth 0 src NaN) (List.length dst))
  else Raise (ValueError ("could not broadcast input array from shape ("
                            ++ str_of_nat n ++ ",) into shape ("
                            ++ str_of_nat (List.length dst) ++ ",)")%string).

(** A pandas DataFrame is a table: a list of rows, so that its columns have
    one length.  [pd.DataFrame] of three columns refuses unequal lengths. *)
Definition pd_DataFrame {A B C : Type} (a : list A) (b : list B) (c : list C)
  : result (list (A * B * C)) :=
  if (List.length a =? List.length b)%nat && (List.length b =? List.length c)%nat
  then Ok (combine (combine a b) c)
  else Raise (ValueError "All arrays must be of the same length").

(** Rows of [Cdata[cast]]: columns [p], [u], [v]. *)
Definition frame : Type := list (float64 * float64 * float64).
Definition col_p (df : frame) : list float64 := map (fun r => fst (fst r)) df.
Definition col_u (df : frame) : list float64 := map (fun r => snd (fst r)) df.
Definition col_v (df : frame) : list float64 := map snd df.

(** Rows of [Cdata_interpolated[cast]]: columns [p_int], [u_int], [v_int]. *)
Definition iframe : Type := list (Z * float64 * float64).
Definition p_int (df : iframe) : list Z := map (fun r => fst (fst r)) df.
Definition u_int (df : iframe) : list float64 := map (fun r => snd (fst r)) df.
Definition v_int (df : iframe) : list float64 := map snd df.

(** ** The interpolator: [process_casts] *)

Definition full_depth_range : list Z := np_arange_int 2 2576 2.

(** [~np.isnan(u) & ~np.isnan(v)] *)
Definition joint_mask (df : frame) : list bool :=
  map (fun r => negb (F64.isnan (snd (fst r))) && negb (F64.isnan (snd r))) df.

(** [np.min([np.max(p[~np.isnan(u) & ~np.isnan(v)]), full_depth_range[-1]])] *)
Definition max_depth_of (df : frame) : result float64 :=
  np_min [np_max (select (col_p df) (joint_mask df));
          F64.of_Z (last full_depth_range 0%Z)].

(** The body of the second loop of [process_casts]. *)
Definition interpolate_cast (df : frame) : result iframe :=
  let p := col_p df in
  let u := col_u df in
  let v := col_v df in
  max_depth <- max_depth_of df ;;
  interpolated_p <- np_arange 2 (F64.add max_depth (F64.of_Z 1)) 2 ;;
  interpolated_u <- np_interp interpolated_p p u NaN NaN ;;
  interpolated_v <- np_interp interpolated_p p v NaN NaN ;;
  let u_extended := np_full_like full_depth_range NaN in
  let v_extended := np_full_like full_depth_range NaN in
  u_extended <- assign_prefix u_extended interpolated_u ;;
  v_extended <- assign_prefix v_extended interpolated_v ;;
  pd_DataFrame full_depth_range u_extended v_extended.

(** The body of the first loop: [Cdata[cast] = pd.DataFrame(df_data)]. *)
Definition to_frame (data : dr_t) : result frame :=
  p <- field "p" (dr_p data) ;;
  u <- field "u" (dr_u data) ;;
  v <- field "v" (dr_v data) ;;
  pd_DataFrame p u v.

Definition process_casts (valid_casts : dict dr_t) : result (dict iframe) :=
  Cdata <- for_each (fun Cdata '(cast, data) =>
                       df <- to_frame data ;; Ok (dict_set cast df Cdata))
                    (items valid_casts) [] ;;
  for_each (fun Cdata_interpolated '(cast, df) =>
              r <- interpolate_cast df ;; Ok (dict_set cast r Cdata_interpolated))
           (items Cdata) [].

(** ** The renderer: [plot_adcp_data] *)

(** The calls made on the plotting library, in order. *)
Inductive plot_call : Type :=
| plt_figure (width height : Z)
| band_plot (band : string)
| plt_quiver (lon lat u v : float64) (scale : Z) (color : string) (label : option string)
| plt_xlabel (s : string)
| plt_ylabel (s : string)
| plt_legend (labels : list string) (loc : string)
| plt_xlim (lo hi : float64)
| plt_ylim (lo hi : float64)
| plt_show.

(** The renderer's state: the calls so far, the lists [lons] and [lats], and
    the local variables [lat] and [lon], unbound until first assigned. *)
Record plot_state : Type := mk_plot {
  calls : list plot_call;
  lons : list float64;
  lats : list float64;
  var_lat : option float64;
  var_lon : option float64
}.

(** Reading a local variable. *)
Definition local (name : string) (x : option float64) : result float64 :=
  match x with
  | Some a => Ok a
  | None => Raise (UnboundLocalError name)
  end.

(** [s[ind]] on a Series with the default index [0 .. len-1]: an integer is a
    label, and a label that is not in the index is a [KeyError]. *)
Definition series_getitem {A : Type} (s : list A) (ind : Z) : result A :=
  if (ind <? 0)%Z then Raise (KeyError (str_of_Z ind))
  else match nth_error s (Z.to_nat ind) with
       | Some a => Ok a
       | None => Raise (KeyError (str_of_Z ind))
       end.

(** [s[mask].index[-1]]: the last label of the selection. *)
Definition last_index (mask : list bool) : result Z :=
  match rev (select (seq 0 (List.length mask)) mask) with
  | i :: _ => Ok (Z.of_nat i)
  | [] => Raise (IndexError "index -1 is out of bounds for axis 0 with size 0")
  end.

(** Built-in [min] and [max] of a list: a later element replaces the current
    one when it compares strictly below, respectively above, it. *)
Definition py_min (xs : list float64) : result float64 :=
  match xs with
  | [] => Raise (ValueError "min() arg is an empty sequence")
  | x :: xs' => Ok (fold_left (fun m y => if F64.lt y m then y else m) xs' x)
  end.

Definition py_max (xs : list float64) : result float64 :=
  match xs with
  | [] => Raise (ValueError "max() arg is an empty sequence")
  | x :: xs' => Ok (fold_left (fun m y => if F64.gt y m then y else m) xs' x)
  end.

(** What [xr.open_dataset(path)] returns or raises: the names of the bands of
    the raster. *)
Definition rasters : Type := string -> result (list string).

Definition band (name : string) (bands : list string) : result string :=
  if existsb (String.eqb name) bands then Ok name else Raise (KeyError name).

Section Renderer.

Variable Cdata_interpolated : dict iframe.
Variable valid_casts : dict dr_t.

(** One iteration of the inner loop, for the pair [(ind, color)]. *)
Definition highlight (cast : string) (st : plot_state) (pair : Z * string)
  : result plot_state :=
  let '(ind, color) := pair in
  df <- dict_get cast Cdata_interpolated ;;
  if (Z.of_nat (List.length df) <=? ind)%Z then Ok st
  else
    u0 <- series_getitem (u_int df) ind ;;
    if F64.isnan u0 then Ok st
    else
      u <- series_getitem (u_int df) ind ;;
      v <- series_getitem (v_int df) ind ;;
      dr <- dict_get cast valid_casts ;;
      lat <- field "lat" (dr_lat dr) ;;
      dr' <- dict_get cast valid_casts ;;
      lon <- field "lon" (dr_lon dr') ;;
      Ok (mk_plot (calls st ++ [plt_quiver lon lat u v 5 color None])
                  (lons st ++ [lon]) (lats st ++ [lat])
                  (Some lat) (Some lon)).

(** The bottom-most measurement of a cast, after its inner loop. *)
Definition bottom (cast : string) (st : plot_state) : result plot_state :=
  df <- dict_get cast Cdata_interpolated ;;
  last_valid_index <- last_index (map (fun x => negb (F64.isnan x)) (u_int df)) ;;
  u_bottom <- series_getitem (u_int df) last_valid_index ;;
  v_bottom <- series_getitem (v_int df) last_valid_index ;;
  lon <- local "lon" (var_lon st) ;;
  lat <- local "lat" (var_lat st) ;;
  Ok (mk_plot (calls st ++ [plt_quiver lon lat u_bottom v_bottom 5 "black"
                                       (Some "Bottom-most Measurement")])
              (lons st ++ [lon]) (lats st ++ [lat])
              (var_lat st) (var_lon st)).

(** One iteration of the outer loop. *)
Definition plot_cast (indices : list Z) (colors : list string)
           (st : plot_state) (cast : string) : result plot_state :=
  st' <- for_each (highlight cast) (combine indices colors) st ;;
  bottom cast st'.

Definition plot_adcp_data (nc : rasters) (bathy_path : string)
           (indices : list Z) (colors : list string) : result (list plot_call) :=
  bathy_data <- nc bathy_path ;;
  b <- band "Band1" bathy_data ;;
  let st0 := mk_plot [plt_figure 14 10; band_plot b] [] [] None None in
  st <- for_each (plot_cast indices colors) (keys Cdata_interpolated) st0 ;;
  let labels := map (fun i => ("Index " ++ str_of_Z i)%string) indices
                ++ ["Bottom-most Measurement"] in
  let cs := calls st ++ [plt_xlabel "Longitude"; plt_ylabel "Latitude";
                         plt_legend labels "upper right"] in
  lo <- py_min (lons st) ;;
  hi <- py_max (lons st) ;;
  let cs := cs ++ [plt_xlim (F64.sub lo (Fin (1 # 5))) (F64.add hi (Fin (1 # 5)))] in
  lo' <- py_min (lats st) ;;
  hi' <- py_max (lats st) ;;
  let cs := cs ++ [plt_ylim (F64.sub lo' (Fin (1 # 5))) (F64.add hi' (Fin (1 # 5)))] in
  Ok (cs ++ [plt_show]).

End Renderer.

(** ** The script *)


Definition bathy_path : string :=
  "/Users/regdowse/Desktop/ADCP/1_Multibeam Dataset of Australia 2018 50m.nc".
Definition indices : list Z := [10; 500; 1000]%Z.
Definition colors : list string := ["red"; "blue"; "green"].


(** * Vocabulary of the statements *)

(** Reading a formatted identifier back: leading zeros do not count. *)
Definition parse_nat (s : string) : option nat :=
  option_map Nat.of_uint (NilEmpty.uint_of_string s).

(** What the scan decides for one identifier: the record it would store. *)
Definition keep (fs : disk) (cast : nat) : option dr_t :=
  match get_adcp_data fs cast with
  | Ok dr =>
      match dr_lon dr with
      | Some lon => if F64.ne lon (F64.of_Z 0) && negb (cast =? 1)%nat then Some dr else None
      | None => None
      end
  | Raise _ => None
  end.

(** "longitude is non-zero", as Python's [lon != 0] decides it. *)
Definition nonzero (lon : float64) : Prop := F64.ne lon (F64.of_Z 0) = true.

(** "The value is present", that is, not the missing-value marker. *)
Definition present (x : float64) : bool := negb (F64.isnan x).

(** "The cast has a pressure sample where both [u] and [v] are present." *)
Definition has_joint (df : frame) : bool := existsb (fun b => b) (joint_mask df).

(** The number of depths [np.arange(2, max_depth + 1, 2)] produces. *)
Definition depth_count (m : Q) : nat := Z.to_nat (Qceiling ((Qred (m + 1) - 2) / 2)).

(** "The pair with index [ind] is drawn for this frame": the index is inside
    the frame and [u] is present there. *)
Definition drawn (df : iframe) (ind : Z) : bool :=
  (ind <? Z.of_nat (List.length df))%Z
  && negb (F64.isnan (nth (Z.to_nat ind) (u_int df) NaN)).

(** "The pair with index [ind] is skipped": the index is past the end of the
    frame, or it is inside and [u] is missing there. *)
Definition skipped (df : iframe) (ind : Z) : bool :=
  (Z.of_nat (List.length df) <=? ind)%Z
  || ((0 <=? ind)%Z && F64.isnan (nth (Z.to_nat ind) (u_int df) NaN)).

(** The state after a drawn pair. *)
Definition draw (lon lat : float64) (df : iframe) (st : plot_state) (pair : Z * string)
  : plot_state :=
  mk_plot (calls st ++ [plt_quiver lon lat (nth (Z.to_nat (fst pair)) (u_int df) NaN)
                                   (nth (Z.to_nat (fst pair)) (v_int df) NaN)
                                   5 (snd pair) None])
          (lons st ++ [lon]) (lats st ++ [lat]) (Some lat) (Some lon).

(** The state after the inner loop of a cast at [(lon, lat)], as a function
    of the state before. *)
Definition after_highlights (df : iframe) (lat lon : float64)
           (pairs : list (Z * string)) (st : plot_state) : plot_state :=
  fold_left (fun s pair => if drawn df (fst pair) then draw lon lat df s pair else s)
            pairs st.

(** The entries the scan stores for a list of identifiers, in that order. *)
Definition kept_entries (fs : disk) (casts : list nat) : dict dr_t :=
  flat_map (fun c => match keep fs c with
                     | Some dr => [(cast_label c, dr)]
                     | None => []
                     end) casts.

(** "The [try] block fails for this identifier": the load raises, or the
    record has no [lon]. *)
Definition load_fails (fs : disk) (cast : nat) : bool :=
  match get_adcp_data fs cast with
  | Ok dr => match dr_lon dr with Some _ => false | None => true end
  | Raise _ => true
  end.

(** The path [get_adcp_data] reads for an identifier. *)
Definition cast_path (cast : nat) : string :=
  ("./processed/" ++ (fmt_03d cast ++ ".mat"))%string.

(** "The frame has a row in which [p], [u] and [v] are all present." *)
Definition usable (df : frame) : bool :=
  existsb (fun r => present (fst (fst r)) && present (snd (fst r)) && present (snd r)) df.

(** The frame [interpolate_cast] builds when the maximum depth is [m]: the
    grid, and beside it the values interpolated at the first [depth_count m]
    grid depths, padded with NaN. *)
Definition interp_frame (df : frame) (m : Q) : iframe :=
  let xs := map (fun i => F64.of_Z (2 + Z.of_nat i * 2)) (seq 0 (depth_count m)) in
  combine (combine full_depth_range
                   (map (interp_at (col_p df) (col_u df) NaN NaN) xs
                    ++ repeat NaN (1287 - depth_count m)))
          (map (interp_at (col_p df) (col_v df) NaN NaN) xs
           ++ repeat NaN (1287 - depth_count m)).

(** The position lookup of a drawn pair: [valid_casts[cast]['lat']], then
    [valid_casts[cast]['lon']]. *)
Definition position (valid_casts : dict dr_t) (cast : string) : result (float64 * float64) :=
  dr <- dict_get cast valid_casts ;;
  lat <- field "lat" (dr_lat dr) ;;
  dr' <- dict_get cast valid_casts ;;
  lon <- field "lon" (dr_lon dr') ;;
  Ok (lat, lon).







(** * Example data *)

(** A disk given by the list of its files; any other path does not exist. *)
Definition disk_of (files : list (string * result (dict dr_t))) : disk :=
  fun path =>
    match dict_lookup path files with
    | Some r => r
    | None => Raise (FileNotFoundError path)
    end.

(** A raster store in which every path opens and has the band [Band1]. *)
Definition any_raster : rasters := fun _ => Ok ["Band1"].

Definition cast_of (p u v : list float64) (lat lon : Q) : dr_t :=
  mk_dr (Some p) (Some u) (Some v) (Some (Fin lat)) (Some (Fin lon)).

(** A two-sample cast at a given position. *)
Definition cast_at (lat lon : Q) : dr_t :=
  cast_of [F64.of_Z 2; F64.of_Z 4] [Fin 1; Fin 2] [Fin 3; Fin 4] lat lon.

(** Cast 1 at longitude -113.5, no file 2, a file 3 without the [dr] record,
    cast 7 at longitude 0 and cast 8 at longitude -114.2. *)
Definition demo_disk : disk :=
  disk_of [("./processed/001.mat", Ok [("dr", cast_at (-32) (-227 # 2))]);
           ("./processed/003.mat", Ok [("header", cast_at 0 0)]);
           ("./processed/007.mat", Ok [("dr", cast_at (-32) 0)]);
           ("./processed/008.mat", Ok [("dr", cast_at (-32) (-571 # 5))])].

(** The cast of the worked example: pressures 2, 4, 6, 8, [u] missing at
    pressure 4, [v] present everywhere. *)
Definition example_frame (v1 v2 v3 v4 : Q) : frame :=
  [(F64.of_Z 2, Fin 1, Fin v1); (F64.of_Z 4, NaN, Fin v2);
   (F64.of_Z 6, Fin 3, Fin v3); (F64.of_Z 8, Fin 4, Fin v4)].

(** A cast whose deepest jointly valid sample lies at pressure 7.5: [v] is
    missing at the last sample, at pressure 9.5. *)
Definition fractional_cast : dr_t :=
  cast_of [F64.of_Z 2; F64.of_Z 6; Fin (15 # 2); Fin (19 # 2)]
          [Fin 1; Fin 3; Fin (9 # 2); Fin (13 # 2)]
          [Fin 1; Fin 1; Fin 1; NaN] (-32) (-571 # 5).

(** A cast in which [u] and [v] are never present together, and its frame. *)
Definition hollow_cast : dr_t :=
  cast_of [F64.of_Z 2; F64.of_Z 4] [NaN; Fin 1] [Fin 1; NaN] (-32) (-571 # 5).

Definition hollow_frame : frame :=
  [(F64.of_Z 2, NaN, Fin 1); (F64.of_Z 4, Fin 1, NaN)].

(** [u] present and [v] missing at depth 2. *)
Definition v_missing_casts : dict dr_t :=
  [("Cast002", cast_of [F64.of_Z 2; F64.of_Z 4] [Fin 1; Fin 2] [NaN; Fin 1] (-32) (-571 # 5))].

(** Two casts at different positions; the second has no [u] at depth 2. *)
Definition two_casts : dict dr_t :=
  [("Cast002", cast_at (-32) (-571 # 5));
   ("Cast003", cast_of [F64.of_Z 2; F64.of_Z 4] [NaN; Fin 6] [Fin 7; Fin 8] (-33) (-115))].

(** Two casts at different positions, both with [u] present at depth 2. *)
Definition both_drawn_casts : dict dr_t :=
  [("Cast002", cast_at (-32) (-571 # 5)); ("Cast003", cast_at (-33) (-115))].

(** A cast whose two samples lie between the grid depths 4 and 6. *)
Definition between_grid_casts : dict dr_t :=
  [("Cast002", cast_of [Fin (9 # 2); Fin (11 # 2)] [Fin 1; Fin 2] [Fin 3; Fin 4] (-32) (-571 # 5))].

(** [demo_disk] with two more files, outside the scanned identifiers. *)
Definition demo_disk_with_strays : disk :=
  disk_of [("./processed/001.mat", Ok [("dr", cast_at (-32) (-227 # 2))]);
           ("./processed/003.mat", Ok [("header", cast_at 0 0)]);
           ("./processed/007.mat", Ok [("dr", cast_at (-32) 0)]);
           ("./processed/008.mat", Ok [("dr", cast_at (-32) (-571 # 5))]);
           ("./processed/000.mat", Ok [("dr", cast_at (-32) (-571 # 5))]);
           ("./processed/009.mat", Raise (ValueError "Unknown mat file type"))].

(** A record without [lon], and a disk that has it as cast 2. *)
Definition cast_without_lon : dr_t :=
  mk_dr (Some [F64.of_Z 2; F64.of_Z 4]) (Some [Fin 1; Fin 2]) (Some [Fin 3; Fin 4])
        (Some (Fin (-32))) None.

Definition disk_without_lon : disk :=
  disk_of [("./processed/002.mat", Ok [("dr", cast_without_lon)]);
           ("./processed/003.mat", Ok [("dr", cast_at (-32) (-571 # 5))])].

(** A record without [u] and one without [lat]. *)
Definition cast_without_u : dr_t :=
  mk_dr (Some [F64.of_Z 2; F64.of_Z 4]) None (Some [Fin 3; Fin 4])
        (Some (Fin (-32))) (Some (Fin (-571 # 5))).

Definition cast_without_lat : dr_t :=
  mk_dr (Some [F64.of_Z 2; F64.of_Z 4]) (Some [Fin 1; Fin 2]) (Some [Fin 3; Fin 4])
        None (Some (Fin (-571 # 5))).

(** The frame of [cast_at], and what [interpolate_cast] makes of it. *)
Definition two_sample_frame : frame :=
  [(F64.of_Z 2, Fin 1, Fin 3); (F64.of_Z 4, Fin 2, Fin 4)].

Definition two_sample_out : iframe := interp_frame two_sample_frame 4.

(** The frame of [between_grid_casts], and what [interpolate_cast] makes of
    it. *)
Definition between_grid_frame : frame :=
  [(Fin (9 # 2), Fin 1, Fin 3); (Fin (11 # 2), Fin 2, Fin 4)].

Definition between_grid_out : iframe := interp_frame between_grid_frame (11 # 2).

(** A short interpolated frame, for the renderer. *)
Definition short_out : iframe := [(2%Z, Fin 1, Fin 3); (4%Z, Fin 2, Fin 4); (6%Z, NaN, NaN)].


(** * Properties *)

(** ** Generic facts: the exception monad, dictionaries, labels *)

Lemma bind_Ok {A B : Type} (m : result A) (k : A -> result B) (b : B) :
  bind m k = Ok b -> exists a, m = Ok a /\ k a = Ok b.
Proof.
  destruct m as [a|e]; simpl; intros H; [exists a; auto | discriminate].
Qed.

Lemma for_each_app {A S : Type} (body : S -> A -> result S) (xs ys : list A) (st : S) :
  for_each body (xs ++ ys) st = (st' <- for_each body xs st ;; for_each body ys st').
Proof.
  revert st; induction xs as [|x xs IH]; intros st; simpl; [reflexivity|].
  destruct (body st x); simpl; auto.
Qed.

(** A loop whose body raises on one of its elements, whatever the state,
    raises. *)
Lemma for_each_raises {A S : Type} (body : S -> A -> result S) (xs : list A) (x : A) :
  In x xs -> (forall st, exists e, body st x = Raise e) ->
  forall st, exists e, for_each body xs st = Raise e.
Proof.
  intros Hin Hx; induction xs as [|y xs IH]; [destruct Hin|].
  intros st; simpl.
  destruct Hin as [->|Hin].
  - destruct (Hx st) as [e ->]; simpl; eauto.
  - destruct (body st y) as [st'|e]; simpl; eauto.
Qed.

Lemma dict_lookup_set_same {V : Type} (k : string) (v : V) (d : dict V) :
  dict_lookup k (dict_set k v d) = Some v.
Proof.
  induction d as [|[k' v'] d IH]; simpl.
  - now rewrite String.eqb_refl.
  - destruct (String.eqb k k') eqn:E; simpl; rewrite ?String.eqb_refl, ?E; auto.
Qed.

Lemma dict_lookup_set_other {V : Type} (k k' : string) (v : V) (d : dict V) :
  k <> k' -> dict_lookup k' (dict_set k v d) = dict_lookup k' d.
Proof.
  intros Hne; induction d as [|[k0 v0] d IH]; simpl.
  - destruct (String.eqb k' k) eqn:E; [apply String.eqb_eq in E; congruence | reflexivity].
  - destruct (String.eqb k k0) eqn:E; simpl.
    + apply String.eqb_eq in E; subst k0.
      destruct (String.eqb k' k) eqn:E'; [apply String.eqb_eq in E'; congruence | reflexivity].
    + now rewrite IH.
Qed.

Lemma dict_set_fresh {V : Type} (k : string) (v : V) (d : dict V) :
  ~ In k (keys d) -> dict_set k v d = d ++ [(k, v)].
Proof.
  induction d as [|[k' v'] d IH]; simpl; intros Hn; [reflexivity|].
  destruct (String.eqb k k') eqn:E.
  - apply String.eqb_eq in E; subst; tauto.
  - f_equal; apply IH; tauto.
Qed.

Lemma dict_lookup_In {V : Type} (k : string) (v : V) (d : dict V) :
  NoDup (keys d) -> In (k, v) d -> dict_lookup k d = Some v.
Proof.
  induction d as [|[k' v'] d IH]; simpl; intros Hnd Hin; [tauto|].
  inversion Hnd as [|? ? Hnotin Hnd']; subst.
  destruct Hin as [[= -> ->]|Hin].
  - now rewrite String.eqb_refl.
  - destruct (String.eqb k k') eqn:E; [|auto].
    apply String.eqb_eq in E; subst k'.
    exfalso; apply Hnotin; unfold keys; change k with (fst (k, v)); now apply in_map.
Qed.

Lemma parse_nat_zeros (k : nat) (s : string) :
  parse_nat (zeros k ++ s)%string = parse_nat s.
Proof.
  unfold parse_nat; induction k as [|k IH]; simpl; [reflexivity|].
  destruct (NilEmpty.uint_of_string (zeros k ++ s)%string) as [d|] eqn:E;
    destruct (NilEmpty.uint_of_string s) as [d'|] eqn:E'; simpl in *;
    try discriminate; try reflexivity.
  injection IH as IH; f_equal.
  transitivity (Nat.of_uint d); [|exact IH].
  apply DecimalNat.Unsigned.of_iff; reflexivity.
Qed.

Lemma parse_nat_str_of_nat (n : nat) : parse_nat (str_of_nat n) = Some n.
Proof.
  unfold parse_nat, str_of_nat, NilZero.string_of_uint.
  destruct (Nat.to_uint n) eqn:E;
    try (rewrite <- E, NilEmpty.usu; simpl; now rewrite DecimalNat.Unsigned.of_to).
  exfalso; pose proof (DecimalNat.Unsigned.of_to n) as H; rewrite E in H.
  pose proof (DecimalNat.Unsigned.to_of Decimal.Nil) as H'.
  simpl in H, H'; subst n; discriminate.
Qed.

Lemma parse_nat_fmt_03d (n : nat) : parse_nat (fmt_03d n) = Some n.
Proof. unfold fmt_03d; rewrite parse_nat_zeros; apply parse_nat_str_of_nat. Qed.

Lemma fmt_03d_inj (n m : nat) : fmt_03d n = fmt_03d m -> n = m.
Proof.
  intros H; apply (f_equal parse_nat) in H.
  rewrite !parse_nat_fmt_03d in H; congruence.
Qed.

Lemma cast_label_inj (n m : nat) : cast_label n = cast_label m -> n = m.
Proof.
  unfold cast_label; simpl; intros H; injection H as H; now apply fmt_03d_inj.
Qed.

(** Selections, padding and zipped columns. *)

Lemma select_none {A : Type} (xs : list A) (mask : list bool) :
  existsb (fun b => b) mask = false -> select xs mask = [].
Proof.
  revert xs; induction mask as [|b mask IH]; intros [|x xs]; simpl; try reflexivity.
  destruct b; simpl; [discriminate | apply IH].
Qed.

Lemma select_app {A : Type} (xs1 xs2 : list A) (m1 m2 : list bool) :
  List.length xs1 = List.length m1 ->
  select (xs1 ++ xs2) (m1 ++ m2) = select xs1 m1 ++ select xs2 m2.
Proof.
  revert m1; induction xs1 as [|x xs1 IH]; intros [|b m1]; simpl; try discriminate.
  - reflexivity.
  - intros [= H]; rewrite (IH m1 H); destruct b; reflexivity.
Qed.

Lemma select_In {A : Type} (xs : list A) (mask : list bool) (x : A) :
  In x (select xs mask) -> In x xs.
Proof.
  revert mask; induction xs as [|y xs IH]; intros [|b mask]; simpl; try tauto.
  destruct b; simpl; [intros [->|H]; eauto | eauto].
Qed.

Lemma select_some {A : Type} (xs : list A) (mask : list bool) :
  List.length xs = List.length mask ->
  existsb (fun b => b) mask = true -> select xs mask <> [].
Proof.
  revert mask; induction xs as [|x xs IH]; intros [|b mask]; simpl; try discriminate.
  intros [= H]; destruct b; simpl; [discriminate | now apply IH].
Qed.

Lemma select_forallb {A : Type} (P : A -> bool) (xs : list A) (mask : list bool) :
  forallb P xs = true -> forallb P (select xs mask) = true.
Proof.
  revert mask; induction xs as [|x xs IH]; intros [|b mask]; simpl; auto.
  intros H; apply andb_true_iff in H; destruct H as [Hx Hxs].
  destruct b; simpl; [rewrite Hx; simpl|]; apply IH; exact Hxs.
Qed.

Lemma skipn_repeat {A : Type} (x : A) (n k : nat) :
  skipn n (repeat x k) = repeat x (k - n).
Proof. revert n; induction k as [|k IH]; intros [|n]; simpl; auto. Qed.

Lemma map_fst_combine {A B : Type} (xs : list A) (ys : list B) :
  List.length xs = List.length ys -> map fst (combine xs ys) = xs.
Proof.
  revert ys; induction xs as [|x xs IH]; intros [|y ys]; simpl; try discriminate; auto.
  intros [= H]; now rewrite IH.
Qed.

Lemma map_snd_combine {A B : Type} (xs : list A) (ys : list B) :
  List.length xs = List.length ys -> map snd (combine xs ys) = ys.
Proof.
  revert ys; induction xs as [|x xs IH]; intros [|y ys]; simpl; try discriminate; auto.
  intros [= H]; now rewrite IH.
Qed.

(** ** The shared depth grid *)

Lemma full_depth_range_eq :
  full_depth_range = map (fun i => (2 + 2 * Z.of_nat i)%Z) (seq 0 1287).
Proof.
  unfold full_depth_range, np_arange_int.
  change (Z.to_nat ((2576 - 2 + 2 - 1) / 2)) with 1287%nat.
  apply map_ext; intros i; lia.
Qed.

Lemma full_depth_range_length : List.length full_depth_range = 1287%nat.
Proof. rewrite full_depth_range_eq, length_map, length_seq; reflexivity. Qed.

Lemma full_depth_range_nth (i : nat) :
  (i < 1287)%nat -> nth_error full_depth_range i = Some (2 + 2 * Z.of_nat i)%Z.
Proof.
  intros Hi; rewrite full_depth_range_eq, nth_error_map.
  rewrite nth_error_nth' with (d := 0%nat) by (rewrite length_seq; lia).
  rewrite seq_nth by lia; reflexivity.
Qed.

(** C1, as stated, fails: the grid [np.arange(2, 2576, 2)] does not have
    1288 entries. *)
Lemma C1_grid_length_is_not_1288 : List.length full_depth_range <> 1288%nat.
Proof. rewrite full_depth_range_length; discriminate. Qed.

(** C1 (amended): the shared depth grid starts at 2, ends at 2574, holds
    exactly the even depths from 2 to 2574 in increasing order with step 2,
    and has length 1287. *)
Theorem C1_grid_is_2_to_2574_step_2 :
  List.length full_depth_range = 1287%nat /\
  hd 0%Z full_depth_range = 2%Z /\
  last full_depth_range 0%Z = 2574%Z /\
  (forall i, (i < 1287)%nat -> nth_error full_depth_range i = Some (2 + 2 * Z.of_nat i)%Z) /\
  (forall z, In z full_depth_range <-> (2 <= z <= 2574)%Z /\ Z.even z = true).
Proof.
  split; [apply full_depth_range_length|].
  split; [reflexivity|].
  split; [vm_compute; reflexivity|].
  split; [apply full_depth_range_nth|].
  intros z; rewrite full_depth_range_eq, in_map_iff; split.
  - intros (i & <- & Hi); apply in_seq in Hi; split; [lia|].
    rewrite Z.even_add_mul_2; reflexivity.
  - intros (Hz & Hev).
    apply Z.even_spec in Hev; destruct Hev as [k ->].
    exists (Z.to_nat (k - 1)); split; [lia | apply in_seq; lia].
Qed.

(** ** The collection scan *)

Lemma scan_cast_Ok (fs : disk) (st st1 : scan_state) (a : nat) :
  scan_cast fs st a = Ok st1 ->
  valid_casts st1 = match keep fs a with
                    | Some dr => dict_set (cast_label a) dr (valid_casts st)
                    | None => valid_casts st
                    end.
Proof.
  unfold scan_cast, try_cast, keep.
  destruct (get_adcp_data fs a) as [dr|e]; simpl.
  - destruct (dr_lon dr) as [lon|]; simpl.
    + destruct (F64.ne lon (F64.of_Z 0) && negb (a =? 1)%nat); intros [= <-]; reflexivity.
    + intros [= <-]; reflexivity.
  - destruct (caught e); [intros [= <-]; reflexivity | discriminate].
Qed.

Lemma scan_cast_total (fs : disk) (st : scan_state) (a : nat) :
  (forall e, get_adcp_data fs a = Raise e -> caught e = true) ->
  exists st1, scan_cast fs st a = Ok st1.
Proof.
  intros H; unfold scan_cast, try_cast.
  destruct (get_adcp_data fs a) as [dr|e]; simpl.
  - destruct (dr_lon dr) as [lon|]; simpl; [|eauto].
    destruct (F64.ne lon (F64.of_Z 0) && negb (a =? 1)%nat); eauto.
  - rewrite (H e eq_refl); eauto.
Qed.

Lemma scan_loop_total (fs : disk) (casts : list nat) :
  (forall c e, In c casts -> get_adcp_data fs c = Raise e -> caught e = true) ->
  forall st, exists st', for_each (scan_cast fs) casts st = Ok st'.
Proof.
  induction casts as [|a casts IH]; intros H st; simpl; [eauto|].
  destruct (scan_cast_total fs st a) as [st1 ->]; [intros e; apply H; now left|].
  simpl; apply IH; intros c e Hc; apply H; now right.
Qed.

Lemma scan_loop_lookup (fs : disk) (casts : list nat) :
  forall st st', for_each (scan_cast fs) casts st = Ok st' ->
  forall c, dict_lookup (cast_label c) (valid_casts st') =
            match (if existsb (Nat.eqb c) casts then keep fs c else None) with
            | Some dr => Some dr
            | None => dict_lookup (cast_label c) (valid_casts st)
            end.
Proof.
  induction casts as [|a casts IH]; intros st st' H c; simpl in *.
  - now injection H as <-.
  - apply bind_Ok in H; destruct H as (st1 & H1 & H2).
    rewrite (IH _ _ H2 c), (scan_cast_Ok _ _ _ _ H1).
    destruct (Nat.eqb c a) eqn:E; simpl.
    + apply Nat.eqb_eq in E; subst a.
      destruct (existsb (Nat.eqb c) casts); destruct (keep fs c) as [dr|]; auto.
      apply dict_lookup_set_same.
    + apply Nat.eqb_neq in E.
      destruct (if existsb (Nat.eqb c) casts then keep fs c else None); auto.
      destruct (keep fs a); auto.
      apply dict_lookup_set_other; intros Heq; apply cast_label_inj in Heq; congruence.
Qed.

Lemma existsb_eqb_seq (c start len : nat) :
  existsb (Nat.eqb c) (seq start len) = ((start <=? c) && (c <? start + len))%nat.
Proof.
  destruct (existsb (Nat.eqb c) (seq start len)) eqn:E.
  - apply existsb_exists in E; destruct E as (x & Hx & Hc).
    apply Nat.eqb_eq in Hc; subst x; apply in_seq in Hx.
    symmetry; apply andb_true_iff; split; [apply Nat.leb_le | apply Nat.ltb_lt]; lia.
  - destruct ((start <=? c) && (c <? start + len))%nat eqn:E'; [|reflexivity].
    apply andb_true_iff in E'; destruct E' as [H1 H2].
    apply Nat.leb_le in H1; apply Nat.ltb_lt in H2.
    assert (Hex : existsb (Nat.eqb c) (seq start len) = true).
    { apply existsb_exists; exists c; split; [apply in_seq; lia | apply Nat.eqb_refl]. }
    congruence.
Qed.

(** The retained mapping, key by key. *)
Lemma get_valid_casts_lookup (fs : disk) (last_cast : nat) (vc : dict dr_t) :
  get_valid_casts fs last_cast = Ok vc ->
  forall c, dict_lookup (cast_label c) vc =
            if ((1 <=? c) && (c <=? last_cast))%nat then keep fs c else None.
Proof.
  unfold get_valid_casts, scan; intros H c.
  apply bind_Ok in H; destruct H as (st & Hst & [= <-]).
  assert (Hb : (c <? 1 + last_cast)%nat = (c <=? last_cast)%nat)
    by (destruct (Nat.leb_spec c last_cast), (Nat.ltb_spec c (1 + last_cast)); lia).
  rewrite (scan_loop_lookup _ _ _ _ Hst c), existsb_eqb_seq, Hb.
  destruct ((1 <=? c) && (c <=? last_cast))%nat; [destruct (keep fs c)|]; reflexivity.
Qed.

Lemma get_valid_casts_total (fs : disk) (last_cast : nat) :
  (forall c e, (1 <= c <= last_cast)%nat -> get_adcp_data fs c = Raise e -> caught e = true) ->
  exists vc, get_valid_casts fs last_cast = Ok vc.
Proof.
  intros H; unfold get_valid_casts, scan.
  destruct (scan_loop_total fs (seq 1 last_cast)) with (st := mk_scan [] []) as [st' ->].
  - intros c e Hc; apply in_seq in Hc; apply H; lia.
  - simpl; eauto.
Qed.

(** C4: when every load failure among the identifiers [1..N] is one the scan
    handles, the scan returns a mapping, and for every identifier in [1..N]
    whose cast loads with a longitude, the cast is stored under its label if
    and only if its longitude is non-zero and the identifier is not 1;
    otherwise its label is absent. *)
Theorem C4_retained_iff_lon_nonzero_and_not_first (fs : disk) (N : nat) :
  (forall c e, (1 <= c <= N)%nat -> get_adcp_data fs c = Raise e -> caught e = true) ->
  exists vc, get_valid_casts fs N = Ok vc /\
    forall cast dr lon,
      (1 <= cast <= N)%nat -> get_adcp_data fs cast = Ok dr -> dr_lon dr = Some lon ->
      (dict_lookup (cast_label cast) vc = Some dr <-> nonzero lon /\ cast <> 1%nat) /\
      (dict_lookup (cast_label cast) vc = None <-> ~ (nonzero lon /\ cast <> 1%nat)).
Proof.
  intros Hfs; destruct (get_valid_casts_total fs N Hfs) as [vc Hvc].
  exists vc; split; [exact Hvc|].
  intros cast dr lon Hc Hdr Hlon.
  rewrite (get_valid_casts_lookup _ _ _ Hvc cast).
  replace ((1 <=? cast) && (cast <=? N))%nat with true
    by (symmetry; apply andb_true_iff; split; apply Nat.leb_le; lia).
  unfold keep, nonzero; rewrite Hdr, Hlon.
  destruct (F64.ne lon (F64.of_Z 0)); simpl;
    destruct (Nat.eqb_spec cast 1); simpl;
    intuition (try discriminate; try congruence).
Qed.

Example demo_scan :
  scan demo_disk 8 =
  Ok (mk_scan [("Cast008", cast_at (-32) (-571 # 5))] [""; ""; ""; ""; ""]).
Proof. vm_compute; reflexivity. Qed.

Example cast_1_is_excluded :
  forall vc, get_valid_casts demo_disk 8 = Ok vc -> dict_lookup "Cast001" vc = None.
Proof. intros vc H; vm_compute in H; injection H as <-; reflexivity. Qed.

Example cast_7_at_longitude_0_is_excluded :
  forall vc, get_valid_casts demo_disk 8 = Ok vc -> dict_lookup "Cast007" vc = None.
Proof. intros vc H; vm_compute in H; injection H as <-; reflexivity. Qed.

Example cast_7_at_longitude_minus_114_2_is_included :
  get_valid_casts (disk_of [("./processed/007.mat", Ok [("dr", cast_at (-32) (-571 # 5))])]) 7
  = Ok [("Cast007", cast_at (-32) (-571 # 5))].
Proof. vm_compute; reflexivity. Qed.

Lemma C4_retained_iff_witness :
  exists vc, get_valid_casts demo_disk 8 = Ok vc /\
    forall cast dr lon,
      (1 <= cast <= 8)%nat -> get_adcp_data demo_disk cast = Ok dr -> dr_lon dr = Some lon ->
      (dict_lookup (cast_label cast) vc = Some dr <-> nonzero lon /\ cast <> 1%nat) /\
      (dict_lookup (cast_label cast) vc = None <-> ~ (nonzero lon /\ cast <> 1%nat)).
Proof.
  apply (C4_retained_iff_lon_nonzero_and_not_first demo_disk 8).
  intros c e Hc.
  assert (Hcases : (c = 1 \/ c = 2 \/ c = 3 \/ c = 4 \/ c = 5 \/ c = 6 \/ c = 7 \/ c = 8)%nat)
    by lia.
  repeat (destruct Hcases as [->|Hcases]); try subst c;
    vm_compute; intros H; first [discriminate H | injection H as <-; reflexivity].
Defined.

(** C5, as stated, fails: a cast file that [loadmat] rejects with a
    [ValueError] is a load failure, and the scan raises it to the caller. *)
Lemma C5_unreadable_file_aborts_the_scan :
  let fs := disk_of [("./processed/002.mat", Raise (ValueError "Unknown mat file type"));
                     ("./processed/003.mat", Ok [("dr", cast_at (-32) (-571 # 5))])] in
  get_adcp_data fs 2 = Raise (ValueError "Unknown mat file type") /\
  get_valid_casts fs 3 = Raise (ValueError "Unknown mat file type").
Proof. split; vm_compute; reflexivity. Qed.

(** C5 (amended): when the load of identifier [c] in [1..N] fails, the scan
    of the identifiers before [c] is followed, if the failure is a
    [FileNotFoundError] or a [KeyError], by the scan of the identifiers after
    [c] on the unchanged mapping (one empty line is printed); a failure of
    any other kind is raised to the caller. *)
Theorem C5_failure_is_swallowed_iff_caught (fs : disk) (N c : nat) (e : exn) :
  (1 <= c <= N)%nat ->
  get_adcp_data fs c = Raise e ->
  scan fs N =
  (st <- for_each (scan_cast fs) (seq 1 (c - 1)) (mk_scan [] []) ;;
   if caught e
   then for_each (scan_cast fs) (seq (S c) (N - c))
                 (mk_scan (valid_casts st) (stdout st ++ [""]))
   else Raise e).
Proof.
  intros Hc He; unfold scan.
  replace N with ((c - 1) + S (N - c))%nat at 1 by lia.
  rewrite seq_app, for_each_app.
  replace (1 + (c - 1))%nat with c by lia.
  destruct (for_each (scan_cast fs) (seq 1 (c - 1)) (mk_scan [] [])) as [st|e']; simpl;
    [|reflexivity].
  unfold scan_cast at 1, try_cast; rewrite He; simpl.
  destruct (caught e); reflexivity.
Qed.

Lemma C5_failure_is_swallowed_witness :
  scan demo_disk 8 =
  (st <- for_each (scan_cast demo_disk) (seq 1 (3 - 1)) (mk_scan [] []) ;;
   if caught (KeyError "dr")
   then for_each (scan_cast demo_disk) (seq 4 (8 - 3))
                 (mk_scan (valid_casts st) (stdout st ++ [""]))
   else Raise (KeyError "dr")).
Proof.
  apply (C5_failure_is_swallowed_iff_caught demo_disk 8 3 (KeyError "dr")).
  - lia.
  - vm_compute; reflexivity.
Defined.

(** ** The interpolator *)

(** C3, as stated, fails: in the worked example the interpolated [u] at depth
    4 is the missing-value marker, not 2.0. *)
Lemma C3_u_at_depth_4_is_missing :
  (exists out, interpolate_cast (example_frame 1 1 1 1) = Ok out /\
               nth_error (p_int out) 1 = Some 4%Z /\
               nth_error (u_int out) 1 = Some NaN) /\
  ~ (exists out, interpolate_cast (example_frame 1 1 1 1) = Ok out /\
                 nth_error (u_int out) 1 = Some (Fin 2)).
Proof.
  split.
  - eexists; split; [vm_compute; reflexivity|]; split; vm_compute; reflexivity.
  - intros (out & H & Hu); vm_compute in H; injection H as <-; discriminate Hu.
Qed.

(** C3 (amended): for pressures [2,4,6,8], u = [1.0, NaN, 3.0, 4.0] and any
    present [v], the maximum jointly valid depth is 8, and the interpolated
    rows at depths 2, 4, 6, 8 repeat the samples: [u] at depth 4 is NaN (the
    missing sample is passed on, not bridged), and depth 10 is already
    padding. *)
Theorem C3_worked_example (v1 v2 v3 v4 : Q) :
  max_depth_of (example_frame v1 v2 v3 v4) = Ok (Fin 8) /\
  exists out, interpolate_cast (example_frame v1 v2 v3 v4) = Ok out /\
    firstn 5 out = [(2%Z, Fin 1, Fin v1); (4%Z, NaN, Fin v2); (6%Z, Fin 3, Fin v3);
                    (8%Z, Fin 4, Fin v4); (10%Z, NaN, NaN)].
Proof.
  split; [vm_compute; reflexivity|].
  eexists; split; [vm_compute; reflexivity | reflexivity].
Qed.

(** A grid depth strictly between a present and a missing sample is missing
    as well: the slope towards the missing sample is NaN. *)
Example missing_sample_blocks_its_neighbours :
  np_interp [F64.of_Z 2; F64.of_Z 4; F64.of_Z 6; F64.of_Z 8]
            [F64.of_Z 2; F64.of_Z 5; F64.of_Z 8] [Fin 1; NaN; Fin 4] NaN NaN
  = Ok [Fin 1; NaN; NaN; Fin 4].
Proof. vm_compute; reflexivity. Qed.

(** C2 fails on the code at [fractional_cast]: [max_depth] is 7.5, the grid
    depth 8 exceeds it, and the interpolated [u] there is 5.0, not the
    missing-value marker ([np.arange(2, max_depth + 1, 2)] reaches 8). *)
Theorem C2_value_beyond_fractional_max_depth :
  (df <- to_frame fractional_cast ;; max_depth_of df) = Ok (Fin (15 # 2)) /\
  exists out, process_casts [("Cast002", fractional_cast)] = Ok [("Cast002", out)] /\
    List.length out = List.length full_depth_range /\
    nth_error out 3 = Some (8%Z, Fin 5, NaN) /\
    F64.lt (Fin (15 # 2)) (F64.of_Z 8) = true.
Proof.
  split; [vm_compute; reflexivity|].
  eexists; split; [vm_compute; reflexivity|].
  repeat split; vm_compute; reflexivity.
Qed.

(** *** What [interpolate_cast] does guarantee *)

Lemma np_max_fold_Fin (xs : list float64) (a : Q) :
  exists b, fold_left (fun acc x =>
                         match acc, x with
                         | _, NaN => acc
                         | NaN, _ => x
                         | _, _ => if F64.lt acc x then x else acc
                         end) xs (Fin a) = Fin b.
Proof.
  revert a; induction xs as [|x xs IH]; intros a; cbn [fold_left]; [eauto|].
  destruct x as [|q]; [apply IH|].
  destruct (F64.lt (Fin a) (Fin q)); apply IH.
Qed.

Lemma np_max_present (xs : list float64) :
  xs <> [] -> forallb present xs = true -> exists a, np_max xs = Fin a.
Proof.
  destruct xs as [|x xs]; [congruence|]; intros _ H; simpl in H.
  apply andb_true_iff in H; destruct H as [Hx _].
  destruct x as [|q]; [discriminate|].
  unfold np_max; simpl; apply np_max_fold_Fin.
Qed.

Lemma last_full_depth_range : last full_depth_range 0%Z = 2574%Z.
Proof. vm_compute; reflexivity. Qed.

(** With a jointly valid sample and no missing pressure, the maximum depth is
    a number, at most the last grid depth. *)
Lemma max_depth_joint (df : frame) :
  has_joint df = true -> forallb present (col_p df) = true ->
  exists m, max_depth_of df = Ok (Fin m) /\ (m <= 2574)%Q.
Proof.
  intros Hj Hp.
  destruct (np_max_present (select (col_p df) (joint_mask df))) as [a Ha].
  - apply select_some; [|exact Hj].
    unfold col_p, joint_mask; now rewrite !length_map.
  - now apply select_forallb.
  - unfold max_depth_of; rewrite Ha, last_full_depth_range.
    unfold np_min, fold_left, F64.isnan, F64.of_Z, F64.lt.
    destruct (Qcompare_spec (inject_Z 2574) a) as [H|H|H].
    + exists a; split; [reflexivity|]. rewrite <- H. apply Qle_refl.
    + exists (inject_Z 2574); split; [reflexivity | apply Qle_refl].
    + exists a; split; [reflexivity | now apply Qlt_le_weak].
Qed.

Lemma depth_count_le (m : Q) : (m <= 2574)%Q -> (depth_count m <= 1287)%nat.
Proof.
  intros H; unfold depth_count.
  assert (Hc : (Qceiling ((Qred (m + 1) - 2) / 2) <= Qceiling (2573 # 2))%Z).
  { apply Qceiling_resp_le; rewrite Qred_correct.
    apply Qle_shift_div_r; [reflexivity|]. lra. }
  change (Qceiling (2573 # 2)) with 1287%Z in Hc; lia.
Qed.

Lemma depth_count_beyond (m : Q) (i : nat) :
  (m + 1 <= inject_Z (2 + 2 * Z.of_nat i))%Q -> (depth_count m <= i)%nat.
Proof.
  intros H; unfold depth_count.
  assert (Hc : (Qceiling ((Qred (m + 1) - 2) / 2) <= Qceiling (inject_Z (Z.of_nat i)))%Z).
  { apply Qceiling_resp_le; rewrite Qred_correct.
    apply Qle_shift_div_r; [reflexivity|].
    rewrite inject_Z_plus, inject_Z_mult in H. change (inject_Z 2) with 2%Q in H. lra. }
  rewrite Qceiling_Z in Hc; lia.
Qed.

(** For a cast with a jointly valid sample and no missing pressure,
    [interpolate_cast] returns a frame over the whole grid, and its [u] and
    [v] are missing at every grid depth of at least [max_depth + 1]. *)
Lemma interpolate_cast_shape (df : frame) :
  has_joint df = true -> forallb present (col_p df) = true ->
  exists m out,
    max_depth_of df = Ok (Fin m) /\
    interpolate_cast df = Ok out /\
    p_int out = full_depth_range /\
    List.length out = List.length full_depth_range /\
    forall i z, nth_error (p_int out) i = Some z -> (m + 1 <= inject_Z z)%Q ->
                nth_error (u_int out) i = Some NaN /\ nth_error (v_int out) i = Some NaN.
Proof.
  intros Hj Hp; destruct (max_depth_joint df Hj Hp) as (m & Hm & Hle).
  pose proof (depth_count_le m Hle) as Hcount.
  assert (Hne : (List.length (col_p df) =? 0)%nat = false).
  { destruct df; [discriminate Hj | reflexivity]. }
  set (xs := map (fun i => F64.of_Z (2 + Z.of_nat i * 2)) (seq 0 (depth_count m))).
  assert (Hxs : List.length xs = depth_count m)
    by (unfold xs; now rewrite length_map, length_seq).
  set (ue := map (interp_at (col_p df) (col_u df) NaN NaN) xs
             ++ repeat NaN (1287 - depth_count m)).
  set (ve := map (interp_at (col_p df) (col_v df) NaN NaN) xs
             ++ repeat NaN (1287 - depth_count m)).
  assert (Hue : List.length ue = 1287%nat)
    by (unfold ue; rewrite length_app, length_map, repeat_length, Hxs; lia).
  assert (Hve : List.length ve = 1287%nat)
    by (unfold ve; rewrite length_app, length_map, repeat_length, Hxs; lia).
  exists m, (combine (combine full_depth_range ue) ve).
  assert (Hrun : interpolate_cast df = Ok (combine (combine full_depth_range ue) ve)).
  { unfold interpolate_cast; rewrite Hm; cbn [bind].
    unfold F64.add, F64.lift2, F64.of_Z, np_arange; fold F64.of_Z.
    change (inject_Z 1) with 1%Q; change (inject_Z 2) with 2%Q.
    fold (depth_count m); fold xs; cbn [bind].
    unfold np_interp; rewrite Hne.
    replace (List.length (col_u df) =? List.length (col_p df))%nat with true
      by (unfold col_u, col_p; rewrite !length_map; symmetry; apply Nat.eqb_refl).
    replace (List.length (col_v df) =? List.length (col_p df))%nat with true
      by (unfold col_v, col_p; rewrite !length_map; symmetry; apply Nat.eqb_refl).
    cbn [negb bind].
    unfold assign_prefix, np_full_like.
    rewrite !length_map, Hxs, repeat_length, full_depth_range_length.
    replace (depth_count m <=? 1287)%nat with true by (symmetry; now apply Nat.leb_le).
    cbn [bind]; rewrite skipn_repeat; fold ue; fold ve.
    unfold pd_DataFrame; rewrite Hue, Hve, full_depth_range_length; reflexivity. }
  split; [exact Hm|]; split; [exact Hrun|].
  assert (Hp_int : p_int (combine (combine full_depth_range ue) ve) = full_depth_range).
  { unfold p_int; rewrite <- map_map, map_fst_combine, map_fst_combine;
      rewrite ?length_combine, ?Hue, ?Hve, ?full_depth_range_length; reflexivity. }
  assert (Hu_int : u_int (combine (combine full_depth_range ue) ve) = ue).
  { unfold u_int; rewrite <- map_map, map_fst_combine, map_snd_combine;
      rewrite ?length_combine, ?Hue, ?Hve, ?full_depth_range_length; reflexivity. }
  assert (Hv_int : v_int (combine (combine full_depth_range ue) ve) = ve).
  { unfold v_int; rewrite map_snd_combine;
      rewrite ?length_combine, ?Hue, ?Hve, ?full_depth_range_length; reflexivity. }
  split; [exact Hp_int|].
  split; [rewrite !length_combine, Hue, Hve, full_depth_range_length; reflexivity|].
  intros i z Hz Hbeyond; rewrite Hp_int in Hz; rewrite Hu_int, Hv_int.
  assert (Hi : (i < 1287)%nat).
  { rewrite <- full_depth_range_length; apply nth_error_Some; congruence. }
  rewrite (full_depth_range_nth i Hi) in Hz; injection Hz as <-.
  pose proof (depth_count_beyond m i Hbeyond) as Hge.
  unfold ue, ve; split;
    (rewrite nth_error_app2 by (rewrite length_map, Hxs; exact Hge);
     apply nth_error_repeat; rewrite length_map, Hxs; lia).
Qed.

(** *** Casts without a jointly valid sample *)

Lemma select_no_joint (df : frame) :
  has_joint df = false -> select (col_p df) (joint_mask df) = [].
Proof. intros H; apply select_none; exact H. Qed.

Lemma max_depth_no_joint (df : frame) : has_joint df = false -> max_depth_of df = Ok NaN.
Proof.
  intros H; unfold max_depth_of; rewrite (select_no_joint df H); reflexivity.
Qed.

Lemma interpolate_cast_no_joint (df : frame) :
  has_joint df = false ->
  interpolate_cast df = Raise (ValueError "arange: cannot compute length").
Proof.
  intros H; unfold interpolate_cast; rewrite (max_depth_no_joint df H); reflexivity.
Qed.

(** A loop that stores one result per item under the item's key keeps every
    item when the keys are distinct. *)
Lemma for_each_dict_set_In {A B : Type} (f : A -> result B) (xs : list (string * A)) :
  forall (acc out : dict B),
    NoDup (keys acc ++ keys xs) ->
    for_each (fun d '(k, x) => y <- f x ;; Ok (dict_set k y d)) xs acc = Ok out ->
    (forall kv, In kv acc -> In kv out) /\
    (forall k x, In (k, x) xs -> exists y, f x = Ok y /\ In (k, y) out).
Proof.
  induction xs as [|[k0 x0] xs IH]; intros acc out Hnd H; simpl in H.
  - injection H as <-; split; [auto | intros k x []].
  - apply bind_Ok in H; destruct H as (d1 & H1 & H2).
    apply bind_Ok in H1; destruct H1 as (y0 & Hy0 & [= <-]).
    assert (Hfresh : ~ In k0 (keys acc)).
    { simpl in Hnd; apply NoDup_remove_2 in Hnd; intros Hin; apply Hnd, in_or_app; now left. }
    rewrite (dict_set_fresh _ _ _ Hfresh) in H2.
    destruct (IH (acc ++ [(k0, y0)]) out) as [Hacc Hxs]; [|exact H2|].
    { unfold keys in *; rewrite map_app; simpl in *; now rewrite <- app_assoc. }
    split.
    + intros kv Hin; apply Hacc, in_or_app; now left.
    + intros k x [[= -> ->]|Hin]; [|now apply Hxs].
      exists y0; split; [exact Hy0|]; apply Hacc, in_or_app; right; now left.
Qed.

(** C6, as stated, fails: for a retained cast without a jointly valid sample
    the maximum depth is computed, without any exception, as NaN, and what
    [process_casts] then raises is NumPy's error about the length of
    [np.arange]. *)
Lemma C6_nan_max_depth_is_produced_silently :
  to_frame hollow_cast = Ok hollow_frame /\
  has_joint hollow_frame = false /\
  max_depth_of hollow_frame = Ok NaN /\
  process_casts [("Cast002", hollow_cast)]
  = Raise (ValueError "arange: cannot compute length").
Proof. repeat split; vm_compute; reflexivity. Qed.

(** C6 (amended): for every retained cast without a jointly valid sample the
    maximum depth is NaN, the loop body then fails with the [ValueError] of
    [np.arange] ("cannot compute length"), and [process_casts] raises for
    every mapping that holds such a cast: the cast is not dropped. *)
Theorem C6_no_joint_sample_aborts_process_casts
        (vc : dict dr_t) (label : string) (dr : dr_t) (df : frame) :
  NoDup (keys vc) -> In (label, dr) vc ->
  to_frame dr = Ok df -> has_joint df = false ->
  max_depth_of df = Ok NaN /\
  interpolate_cast df = Raise (ValueError "arange: cannot compute length") /\
  exists e, process_casts vc = Raise e.
Proof.
  intros Hnd Hin Hdf Hj.
  split; [now apply max_depth_no_joint|].
  split; [now apply interpolate_cast_no_joint|].
  unfold process_casts, items.
  match goal with
  | |- exists e, bind ?m _ = _ => destruct m as [Cdata|e0] eqn:E
  end; simpl; [|eauto].
  apply for_each_dict_set_In in E; [|exact Hnd].
  destruct E as [_ E]; destruct (E label dr Hin) as (df' & Hdf' & Hin').
  assert (df' = df) by congruence; subst df'.
  apply for_each_raises with (x := (label, df)); [exact Hin'|].
  intros st; rewrite (interpolate_cast_no_joint df Hj); simpl; eauto.
Qed.

Lemma C6_no_joint_sample_witness :
  max_depth_of hollow_frame = Ok NaN /\
  interpolate_cast hollow_frame = Raise (ValueError "arange: cannot compute length") /\
  exists e, process_casts [("Cast002", cast_at (-32) (-571 # 5)); ("Cast003", hollow_cast)]
            = Raise e.
Proof.
  apply (C6_no_joint_sample_aborts_process_casts
           [("Cast002", cast_at (-32) (-571 # 5)); ("Cast003", hollow_cast)]
           "Cast003" hollow_cast hollow_frame).
  - repeat constructor; simpl; intuition discriminate.
  - simpl; auto.
  - reflexivity.
  - reflexivity.
Defined.

(** ** The renderer *)

Lemma series_getitem_in_bounds {A : Type} (s : list A) (ind : Z) (d : A) :
  (0 <= ind < Z.of_nat (List.length s))%Z ->
  series_getitem s ind = Ok (nth (Z.to_nat ind) s d).
Proof.
  intros H; unfold series_getitem.
  destruct (Z.ltb_spec ind 0); [lia|].
  rewrite nth_error_nth' with (d := d) by lia; reflexivity.
Qed.

Lemma u_int_length (df : iframe) : List.length (u_int df) = List.length df.
Proof. apply length_map. Qed.

Lemma v_int_length (df : iframe) : List.length (v_int df) = List.length df.
Proof. apply length_map. Qed.

Lemma dict_get_Some {V : Type} (k : string) (d : dict V) (v : V) :
  dict_lookup k d = Some v -> dict_get k d = Ok v.
Proof. unfold dict_get; now intros ->. Qed.

Section RendererFacts.

Variable Cdata_interpolated : dict iframe.
Variable valid_casts : dict dr_t.
Variable cast : string.
Variable df : iframe.
Hypothesis Hdf : dict_lookup cast Cdata_interpolated = Some df.

Lemma highlight_skipped (st : plot_state) (ind : Z) (color : string) :
  skipped df ind = true ->
  highlight Cdata_interpolated valid_casts cast st (ind, color) = Ok st.
Proof.
  unfold skipped, highlight; intros H; rewrite (dict_get_Some _ _ _ Hdf); simpl.
  destruct (Z.leb_spec (Z.of_nat (List.length df)) ind) as [Hle|Hlt]; [reflexivity|].
  simpl in H; apply andb_true_iff in H; destruct H as [H0 Hnan].
  apply Z.leb_le in H0.
  rewrite (series_getitem_in_bounds (u_int df) ind NaN) by (rewrite u_int_length; lia).
  simpl; now rewrite Hnan.
Qed.

Lemma highlight_loop_skipped (pairs : list (Z * string)) (st : plot_state) :
  forallb (fun pair => skipped df (fst pair)) pairs = true ->
  for_each (highlight Cdata_interpolated valid_casts cast) pairs st = Ok st.
Proof.
  induction pairs as [|[ind color] pairs IH]; [reflexivity|].
  cbn [forallb fst for_each]; intros H; apply andb_true_iff in H; destruct H as [H1 H2].
  rewrite (highlight_skipped st ind color H1); cbn [bind]; auto.
Qed.

Variable dr : dr_t.
Variables lat lon : float64.
Hypothesis Hdr : dict_lookup cast valid_casts = Some dr.
Hypothesis Hlat : dr_lat dr = Some lat.
Hypothesis Hlon : dr_lon dr = Some lon.

Lemma highlight_step (st : plot_state) (pair : Z * string) :
  (0 <= fst pair)%Z ->
  highlight Cdata_interpolated valid_casts cast st pair
  = Ok (if drawn df (fst pair) then draw lon lat df st pair else st).
Proof.
  destruct pair as [ind color]; simpl; intros H0.
  unfold highlight, drawn; rewrite (dict_get_Some _ _ _ Hdf); simpl.
  destruct (Z.leb_spec (Z.of_nat (List.length df)) ind) as [Hle|Hlt].
  - destruct (Z.ltb_spec ind (Z.of_nat (List.length df))); [lia | reflexivity].
  - destruct (Z.ltb_spec ind (Z.of_nat (List.length df))); [|lia].
    rewrite (series_getitem_in_bounds (u_int df) ind NaN) by (rewrite u_int_length; lia).
    rewrite (series_getitem_in_bounds (v_int df) ind NaN) by (rewrite v_int_length; lia).
    simpl.
    destruct (F64.isnan (nth (Z.to_nat ind) (u_int df) NaN)); simpl; [reflexivity|].
    rewrite (dict_get_Some _ _ _ Hdr); simpl; rewrite Hlat, Hlon; reflexivity.
Qed.

Lemma highlight_loop (pairs : list (Z * string)) (st : plot_state) :
  Forall (fun pair => (0 <= fst pair)%Z) pairs ->
  for_each (highlight Cdata_interpolated valid_casts cast) pairs st
  = Ok (after_highlights df lat lon pairs st).
Proof.
  intros H; revert st; induction H as [|pair pairs H0 _ IH]; intros st;
    [reflexivity|].
  cbn [for_each]; rewrite (highlight_step st pair H0); cbn [bind]; apply IH.
Qed.

Lemma after_highlights_position (pairs : list (Z * string)) (st : plot_state) :
  var_lon (after_highlights df lat lon pairs st)
  = (if existsb (fun pair => drawn df (fst pair)) pairs then Some lon else var_lon st) /\
  var_lat (after_highlights df lat lon pairs st)
  = (if existsb (fun pair => drawn df (fst pair)) pairs then Some lat else var_lat st).
Proof.
  revert st; induction pairs as [|pair pairs IH]; intros st; simpl; [auto|].
  destruct (drawn df (fst pair)); simpl; [|apply IH].
  destruct (IH (draw lon lat df st pair)) as [-> ->]; simpl.
  destruct (existsb _ pairs); auto.
Qed.

Lemma after_highlights_calls (pairs : list (Z * string)) (st : plot_state) :
  calls (after_highlights df lat lon pairs st)
  = calls st ++ map (fun pair => plt_quiver lon lat (nth (Z.to_nat (fst pair)) (u_int df) NaN)
                                            (nth (Z.to_nat (fst pair)) (v_int df) NaN)
                                            5 (snd pair) None)
                    (filter (fun pair => drawn df (fst pair)) pairs).
Proof.
  revert st; induction pairs as [|pair pairs IH]; intros st; simpl;
    [now rewrite app_nil_r|].
  destruct (drawn df (fst pair)); simpl; [|apply IH].
  rewrite IH; simpl; now rewrite <- app_assoc.
Qed.

End RendererFacts.

(** *** The last valid index *)

Lemma last_index_none (mask : list bool) :
  existsb (fun b => b) mask = false ->
  last_index mask = Raise (IndexError "index -1 is out of bounds for axis 0 with size 0").
Proof. intros H; unfold last_index; now rewrite select_none. Qed.

Lemma last_index_some (mask : list bool) :
  existsb (fun b => b) mask = true ->
  exists k, last_index mask = Ok (Z.of_nat k) /\ (k < List.length mask)%nat.
Proof.
  intros H; unfold last_index.
  destruct (rev (select (seq 0 (List.length mask)) mask)) as [|i l] eqn:E.
  - exfalso; apply (select_some (seq 0 (List.length mask)) mask);
      [apply length_seq | exact H|].
    apply (f_equal (@rev nat)) in E; now rewrite rev_involutive in E.
  - exists i; split; [reflexivity|].
    assert (Hin : In i (select (seq 0 (List.length mask)) mask))
      by (apply in_rev; rewrite E; now left).
    apply select_In, in_seq in Hin; lia.
Qed.

Lemma split_at_nth {A : Type} (l : list A) (k : nat) (d : A) :
  (k < List.length l)%nat -> l = firstn k l ++ nth k l d :: skipn (S k) l.
Proof.
  revert k; induction l as [|a l IH]; intros [|k] H; simpl in *; try lia; try reflexivity.
  f_equal; apply IH; lia.
Qed.

(** The last valid index is the largest index at which the mask holds. *)
Lemma last_index_deepest (mask : list bool) (k : nat) :
  (k < List.length mask)%nat ->
  nth k mask false = true ->
  (forall j, (k < j < List.length mask)%nat -> nth j mask false = false) ->
  last_index mask = Ok (Z.of_nat k).
Proof.
  intros Hk Hnth Hlater; unfold last_index.
  assert (Hsplit : mask = firstn k mask ++ true :: skipn (S k) mask)
    by (rewrite <- Hnth; now apply split_at_nth).
  assert (Hrest : existsb (fun b => b) (skipn (S k) mask) = false).
  { destruct (existsb (fun b => b) (skipn (S k) mask)) eqn:E; [|reflexivity].
    apply existsb_exists in E; destruct E as (b & Hin & ->).
    apply In_nth with (d := false) in Hin; destruct Hin as (j & Hj & Hnj).
    rewrite length_skipn in Hj; rewrite nth_skipn in Hnj.
    rewrite Hlater in Hnj by lia; discriminate. }
  assert (Hlen : List.length mask = (k + S (List.length mask - S k))%nat) by lia.
  rewrite Hlen at 1; rewrite seq_app; simpl seq.
  rewrite Hsplit at 2.
  rewrite select_app by (rewrite length_seq, length_firstn; lia).
  simpl select; rewrite (select_none _ _ Hrest), rev_app_distr; reflexivity.
Qed.

(** *** Example data for the renderer *)

(** *** Empty mapping *)

(** C7, as stated, fails: with nothing retained the renderer ends in the
    [ValueError] of [min] over the empty list [lons]. *)
Lemma C7_empty_mapping_fails_in_min :
  process_casts [] = Ok [] /\
  py_min [] = Raise (ValueError "min() arg is an empty sequence") /\
  plot_adcp_data [] [] any_raster "bathymetry.nc" [10; 500; 1000]%Z ["red"; "blue"; "green"]
  = Raise (ValueError "min() arg is an empty sequence").
Proof. repeat split; reflexivity. Qed.

(** C7 (amended): when nothing is retained and the raster opens, the
    renderer fails with the [ValueError] that [min] raises on the empty list
    of longitudes; no other condition is raised. *)
Theorem C7_empty_mapping_raises_min_error
        (vc : dict dr_t) (nc : rasters) (path : string) (bands : list string)
        (indices : list Z) (colors : list string) :
  nc path = Ok bands -> existsb (String.eqb "Band1") bands = true ->
  plot_adcp_data [] vc nc path indices colors
  = Raise (ValueError "min() arg is an empty sequence").
Proof.
  intros Hnc Hband; unfold plot_adcp_data, band; rewrite Hnc; cbn [bind]; rewrite Hband.
  reflexivity.
Qed.

Lemma C7_empty_mapping_witness :
  plot_adcp_data [] two_casts any_raster "bathymetry.nc" [10; 500; 1000]%Z
                 ["red"; "blue"; "green"]
  = Raise (ValueError "min() arg is an empty sequence").
Proof.
  apply (C7_empty_mapping_raises_min_error two_casts any_raster "bathymetry.nc" ["Band1"]);
    reflexivity.
Defined.

(** *** Highlighted indices *)

(** C8, as stated, fails: at index 0 of this cast [u] is present and [v] is
    missing, and the vector is drawn all the same, with a NaN component. *)
Lemma C8_vector_drawn_with_missing_v :
  exists ci cs,
    process_casts v_missing_casts = Ok ci /\
    plot_adcp_data ci v_missing_casts any_raster "bathymetry.nc" [0%Z] ["red"] = Ok cs /\
    In (plt_quiver (Fin (-571 # 5)) (Fin (-32)) (Fin 1) NaN 5 "red" None) cs.
Proof.
  eexists; eexists; split; [vm_compute; reflexivity|].
  split; [vm_compute; reflexivity|].
  simpl; auto.
Qed.

(** C8 (amended): for a retained cast and a pair with a non-negative index,
    the vector is drawn, at the cast's own position and in the pair's color,
    if and only if the index is inside the interpolated frame and [u] is
    present at that index ([v] is not examined); otherwise the pair leaves
    the state as it was. *)
Theorem C8_highlight_drawn_iff_u_present
        (Cdata_interpolated : dict iframe) (valid_casts : dict dr_t) (cast : string)
        (df : iframe) (dr : dr_t) (lat lon : float64)
        (st : plot_state) (ind : Z) (color : string) :
  dict_lookup cast Cdata_interpolated = Some df ->
  dict_lookup cast valid_casts = Some dr ->
  dr_lat dr = Some lat -> dr_lon dr = Some lon ->
  (0 <= ind)%Z ->
  highlight Cdata_interpolated valid_casts cast st (ind, color)
  = Ok (if (ind <? Z.of_nat (List.length df))%Z
           && negb (F64.isnan (nth (Z.to_nat ind) (u_int df) NaN))
        then mk_plot (calls st ++ [plt_quiver lon lat (nth (Z.to_nat ind) (u_int df) NaN)
                                              (nth (Z.to_nat ind) (v_int df) NaN)
                                              5 color None])
                     (lons st ++ [lon]) (lats st ++ [lat]) (Some lat) (Some lon)
        else st).
Proof.
  intros Hdf Hdr Hlat Hlon H0.
  apply (highlight_step Cdata_interpolated valid_casts cast df Hdf dr lat lon Hdr Hlat Hlon
                        st (ind, color) H0).
Qed.

Lemma C8_highlight_witness :
  highlight [("Cast002", [(2%Z, Fin 1, NaN); (4%Z, Fin 2, Fin 1)])] v_missing_casts "Cast002"
            (mk_plot [] [] [] None None) (1%Z, "blue")
  = Ok (mk_plot [plt_quiver (Fin (-571 # 5)) (Fin (-32)) (Fin 2) (Fin 1) 5 "blue" None]
                [Fin (-571 # 5)] [Fin (-32)] (Some (Fin (-32))) (Some (Fin (-571 # 5)))).
Proof.
  exact (C8_highlight_drawn_iff_u_present
           [("Cast002", [(2%Z, Fin 1, NaN); (4%Z, Fin 2, Fin 1)])] v_missing_casts "Cast002"
           [(2%Z, Fin 1, NaN); (4%Z, Fin 2, Fin 1)]
           (cast_of [F64.of_Z 2; F64.of_Z 4] [Fin 1; Fin 2] [NaN; Fin 1] (-32) (-571 # 5))
           (Fin (-32)) (Fin (-571 # 5)) (mk_plot [] [] [] None None) 1%Z "blue"
           eq_refl eq_refl eq_refl eq_refl Z.le_0_1).
Defined.

(** *** The bottom-most measurement *)

Lemma Forall_combine_fst {A B : Type} (P : A -> Prop) (xs : list A) (ys : list B) :
  Forall P xs -> Forall (fun pair => P (fst pair)) (combine xs ys).
Proof.
  intros H; revert ys; induction H as [|x xs Hx _ IH]; intros [|y ys]; simpl;
    constructor; auto.
Qed.

Lemma existsb_id_map {A : Type} (f : A -> bool) (l : list A) :
  existsb (fun b => b) (map f l) = existsb f l.
Proof. induction l as [|a l IH]; simpl; [reflexivity | now rewrite IH]. Qed.

(** The bottom step when [k] is the deepest index at which [u] is present:
    the vector carries the values of row [k] and sits at whatever the
    variables [lon] and [lat] hold. *)
Lemma bottom_at_deepest (Cdata_interpolated : dict iframe) (cast : string) (df : iframe)
      (st : plot_state) (k : nat) :
  dict_lookup cast Cdata_interpolated = Some df ->
  (k < List.length df)%nat ->
  F64.isnan (nth k (u_int df) NaN) = false ->
  (forall j, (k < j < List.length df)%nat -> F64.isnan (nth j (u_int df) NaN) = true) ->
  bottom Cdata_interpolated cast st
  = (lo <- local "lon" (var_lon st) ;;
     la <- local "lat" (var_lat st) ;;
     Ok (mk_plot (calls st ++ [plt_quiver lo la (nth k (u_int df) NaN) (nth k (v_int df) NaN)
                                          5 "black" (Some "Bottom-most Measurement")])
                 (lons st ++ [lo]) (lats st ++ [la]) (var_lat st) (var_lon st))).
Proof.
  intros Hdf Hk Hu Hlater; unfold bottom; rewrite (dict_get_Some _ _ _ Hdf); cbn [bind].
  rewrite (last_index_deepest _ k).
  - cbn [bind].
    rewrite (series_getitem_in_bounds (u_int df) _ NaN) by (rewrite u_int_length; lia).
    rewrite (series_getitem_in_bounds (v_int df) _ NaN) by (rewrite v_int_length; lia).
    cbn [bind]; rewrite Nat2Z.id; reflexivity.
  - rewrite length_map, u_int_length; exact Hk.
  - change false with ((fun x => negb (F64.isnan x)) NaN) at 1.
    rewrite map_nth, Hu; reflexivity.
  - intros j Hj; rewrite length_map, u_int_length in Hj.
    change false with ((fun x => negb (F64.isnan x)) NaN) at 1.
    rewrite map_nth, Hlater by exact Hj; reflexivity.
Qed.

(** The second cast of [two_casts] draws no highlighted vector at index 0, and
    its bottom vector (u = 6, v = 8) is placed at the position of the first
    cast, (-114.2, -32), not at its own, (-115, -33). *)
Example bottom_vector_at_the_position_of_an_earlier_cast :
  exists ci,
    process_casts two_casts = Ok ci /\
    plot_adcp_data ci two_casts any_raster "bathymetry.nc" [0%Z] ["red"]
    = Ok [plt_figure 14 10; band_plot "Band1";
          plt_quiver (Fin (-571 # 5)) (Fin (-32)) (Fin 1) (Fin 3) 5 "red" None;
          plt_quiver (Fin (-571 # 5)) (Fin (-32)) (Fin 2) (Fin 4) 5 "black"
                     (Some "Bottom-most Measurement");
          plt_quiver (Fin (-571 # 5)) (Fin (-32)) (Fin 6) (Fin 8) 5 "black"
                     (Some "Bottom-most Measurement");
          plt_xlabel "Longitude"; plt_ylabel "Latitude";
          plt_legend ["Index 0"; "Bottom-most Measurement"] "upper right";
          plt_xlim (Fin (-572 # 5)) (Fin (-114)); plt_ylim (Fin (-161 # 5)) (Fin (-159 # 5));
          plt_show].
Proof. eexists; split; vm_compute; reflexivity. Qed.

(** C9, as stated, fails: the second cast draws its highlighted vector at
    index 0, and its bottom-most vector (u = 2, v = 4, the last of the calls
    in black) is then placed at its own position, (-115, -33), not at what
    the first cast left, (-114.2, -32). *)
Lemma C9_bottom_vector_at_own_position_after_a_highlight :
  dict_lookup "Cast003" both_drawn_casts = Some (cast_at (-33) (-115)) /\
  exists ci,
    process_casts both_drawn_casts = Ok ci /\
    plot_adcp_data ci both_drawn_casts any_raster "bathymetry.nc" [0%Z] ["red"]
    = Ok [plt_figure 14 10; band_plot "Band1";
          plt_quiver (Fin (-571 # 5)) (Fin (-32)) (Fin 1) (Fin 3) 5 "red" None;
          plt_quiver (Fin (-571 # 5)) (Fin (-32)) (Fin 2) (Fin 4) 5 "black"
                     (Some "Bottom-most Measurement");
          plt_quiver (Fin (-115)) (Fin (-33)) (Fin 1) (Fin 3) 5 "red" None;
          plt_quiver (Fin (-115)) (Fin (-33)) (Fin 2) (Fin 4) 5 "black"
                     (Some "Bottom-most Measurement");
          plt_xlabel "Longitude"; plt_ylabel "Latitude";
          plt_legend ["Index 0"; "Bottom-most Measurement"] "upper right";
          plt_xlim (Fin (-576 # 5)) (Fin (-114)); plt_ylim (Fin (-166 # 5)) (Fin (-159 # 5));
          plt_show].
Proof. split; [reflexivity|]. eexists; split; vm_compute; reflexivity. Qed.

(** C9 (amended): for every retained cast whose deepest index with a present
    [u] is [k], the bottom-most vector carries the values of row [k], and its
    position is what the variables [lon] and [lat] hold after the index
    loop: the current cast's own position when one of its highlighted
    vectors was drawn, and otherwise what the state before the cast held,
    left there by the most recent earlier cast that drew one. *)
Theorem C9_bottom_vector_uses_leftover_position
        (Cdata_interpolated : dict iframe) (valid_casts : dict dr_t) (cast : string)
        (df : iframe) (dr : dr_t) (lat lon : float64)
        (indices : list Z) (colors : list string) (st : plot_state) (k : nat) :
  dict_lookup cast Cdata_interpolated = Some df ->
  dict_lookup cast valid_casts = Some dr ->
  dr_lat dr = Some lat -> dr_lon dr = Some lon ->
  Forall (fun ind => (0 <= ind)%Z) indices ->
  (k < List.length df)%nat ->
  F64.isnan (nth k (u_int df) NaN) = false ->
  (forall j, (k < j < List.length df)%nat -> F64.isnan (nth j (u_int df) NaN) = true) ->
  exists st',
    for_each (highlight Cdata_interpolated valid_casts cast) (combine indices colors) st
    = Ok st' /\
    var_lon st' = (if existsb (fun pair => drawn df (fst pair)) (combine indices colors)
                   then Some lon else var_lon st) /\
    var_lat st' = (if existsb (fun pair => drawn df (fst pair)) (combine indices colors)
                   then Some lat else var_lat st) /\
    plot_cast Cdata_interpolated valid_casts indices colors st cast
    = (lo <- local "lon" (var_lon st') ;;
       la <- local "lat" (var_lat st') ;;
       Ok (mk_plot (calls st' ++ [plt_quiver lo la (nth k (u_int df) NaN)
                                             (nth k (v_int df) NaN)
                                             5 "black" (Some "Bottom-most Measurement")])
                   (lons st' ++ [lo]) (lats st' ++ [la]) (var_lat st') (var_lon st'))).
Proof.
  intros Hdf Hdr Hlat Hlon Hind Hk Hu Hlater.
  pose proof (highlight_loop Cdata_interpolated valid_casts cast df Hdf dr lat lon
                             Hdr Hlat Hlon (combine indices colors) st
                             (Forall_combine_fst _ _ _ Hind)) as Hloop.
  exists (after_highlights df lat lon (combine indices colors) st).
  split; [exact Hloop|].
  destruct (after_highlights_position df lat lon (combine indices colors) st) as [Hlo Hla].
  split; [exact Hlo|]; split; [exact Hla|].
  unfold plot_cast; rewrite Hloop; cbn [bind].
  now apply bottom_at_deepest.
Qed.

Lemma C9_bottom_vector_witness :
  exists st',
    for_each (highlight [("Cast002", [(2%Z, Fin 1, Fin 3); (4%Z, Fin 2, Fin 4); (6%Z, NaN, NaN)])]
                        two_casts "Cast002")
             (combine [0%Z; 5%Z] ["red"; "blue"]) (mk_plot [] [] [] None None)
    = Ok st' /\
    var_lon st' = Some (Fin (-571 # 5)) /\
    var_lat st' = Some (Fin (-32)) /\
    plot_cast [("Cast002", [(2%Z, Fin 1, Fin 3); (4%Z, Fin 2, Fin 4); (6%Z, NaN, NaN)])]
              two_casts [0%Z; 5%Z] ["red"; "blue"] (mk_plot [] [] [] None None) "Cast002"
    = (lo <- local "lon" (var_lon st') ;;
       la <- local "lat" (var_lat st') ;;
       Ok (mk_plot (calls st' ++ [plt_quiver lo la (Fin 2) (Fin 4) 5 "black"
                                             (Some "Bottom-most Measurement")])
                   (lons st' ++ [lo]) (lats st' ++ [la]) (var_lat st') (var_lon st'))).
Proof.
  apply (C9_bottom_vector_uses_leftover_position
           [("Cast002", [(2%Z, Fin 1, Fin 3); (4%Z, Fin 2, Fin 4); (6%Z, NaN, NaN)])]
           two_casts "Cast002"
           [(2%Z, Fin 1, Fin 3); (4%Z, Fin 2, Fin 4); (6%Z, NaN, NaN)]
           (cast_of [F64.of_Z 2; F64.of_Z 4] [Fin 1; Fin 2] [Fin 3; Fin 4] (-32) (-571 # 5))
           (Fin (-32)) (Fin (-571 # 5)) [0%Z; 5%Z] ["red"; "blue"]
           (mk_plot [] [] [] None None) 1%nat).
  - reflexivity.
  - reflexivity.
  - reflexivity.
  - reflexivity.
  - repeat constructor; lia.
  - simpl; lia.
  - reflexivity.
  - intros j Hj; simpl in Hj; assert (j = 2)%nat by lia; subst j; reflexivity.
Defined.

(** *** A first cast without a highlighted vector *)

(** C10, as stated, fails: this first cast has no present [u] on the grid,
    all three pairs are skipped, and the renderer fails with an [IndexError]
    before it reads the position variables. *)
Lemma C10_first_cast_without_u_fails_with_index_error :
  exists df,
    process_casts between_grid_casts = Ok [("Cast002", df)] /\
    forallb (fun pair => skipped df (fst pair))
            (combine [10; 500; 1000]%Z ["red"; "blue"; "green"]) = true /\
    plot_adcp_data [("Cast002", df)] between_grid_casts any_raster "bathymetry.nc"
                   [10; 500; 1000]%Z ["red"; "blue"; "green"]
    = Raise (IndexError "index -1 is out of bounds for axis 0 with size 0").
Proof. eexists; repeat split; vm_compute; reflexivity. Qed.

(** C10 (amended): if every pair is skipped for the first cast of the
    iteration, the renderer fails at that cast's bottom-most step: with an
    unbound-variable error for [lon] when the cast has a present [u]
    somewhere, and with an [IndexError] from the empty selection when it has
    none. *)
Theorem C10_first_cast_all_pairs_skipped
        (valid_casts : dict dr_t) (nc : rasters) (path : string) (bands : list string)
        (indices : list Z) (colors : list string)
        (cast : string) (df : iframe) (rest : dict iframe) :
  nc path = Ok bands -> existsb (String.eqb "Band1") bands = true ->
  forallb (fun pair => skipped df (fst pair)) (combine indices colors) = true ->
  plot_adcp_data ((cast, df) :: rest) valid_casts nc path indices colors
  = Raise (if existsb (fun x => negb (F64.isnan x)) (u_int df)
           then UnboundLocalError "lon"
           else IndexError "index -1 is out of bounds for axis 0 with size 0").
Proof.
  intros Hnc Hband Hskip.
  assert (Hdf : dict_lookup cast ((cast, df) :: rest) = Some df)
    by (simpl; now rewrite String.eqb_refl).
  unfold plot_adcp_data, band; rewrite Hnc; cbn [bind]; rewrite Hband; cbn [bind].
  unfold keys; cbn [map fst for_each]; unfold plot_cast at 1.
  rewrite (highlight_loop_skipped _ valid_casts cast df Hdf _ _ Hskip); cbn [bind].
  unfold bottom; rewrite (dict_get_Some _ _ _ Hdf); cbn [bind].
  rewrite <- existsb_id_map.
  destruct (existsb (fun b => b) (map (fun x => negb (F64.isnan x)) (u_int df))) eqn:E.
  - destruct (last_index_some _ E) as (k & -> & Hk); cbn [bind].
    rewrite length_map, u_int_length in Hk.
    rewrite (series_getitem_in_bounds (u_int df) _ NaN) by (rewrite u_int_length; lia).
    rewrite (series_getitem_in_bounds (v_int df) _ NaN) by (rewrite v_int_length; lia).
    reflexivity.
  - rewrite (last_index_none _ E); reflexivity.
Qed.

Lemma C10_first_cast_witness :
  plot_adcp_data [("Cast003", [(2%Z, NaN, Fin 7); (4%Z, Fin 6, Fin 8); (6%Z, NaN, NaN)])]
                 two_casts any_raster "bathymetry.nc" [0; 5]%Z ["red"; "blue"]
  = Raise (UnboundLocalError "lon").
Proof.
  exact (C10_first_cast_all_pairs_skipped
           two_casts any_raster "bathymetry.nc" ["Band1"] [0; 5]%Z ["red"; "blue"]
           "Cast003" [(2%Z, NaN, Fin 7); (4%Z, Fin 6, Fin 8); (6%Z, NaN, NaN)] []
           eq_refl eq_refl eq_refl).
Defined.

(** * Further properties *)

(** ** File names and labels *)

Lemma zeros_length (k : nat) : String.length (zeros k) = k.
Proof. induction k as [|k IH]; simpl; [reflexivity | now rewrite IH]. Qed.

Lemma string_length_append (s t : string) :
  String.length (s ++ t)%string = (String.length s + String.length t)%nat.
Proof. induction s as [|a s IH]; simpl; [reflexivity | now rewrite IH]. Qed.

(** X1: the zero-padded identifier has three characters, or as many as the
    identifier has digits when those are more, and it reads back as the
    identifier. *)
Theorem fmt_03d_width_and_round_trip (n : nat) :
  String.length (fmt_03d n) = Nat.max 3 (String.length (str_of_nat n)) /\
  parse_nat (fmt_03d n) = Some n.
Proof.
  split; [|apply parse_nat_fmt_03d].
  unfold fmt_03d; rewrite string_length_append, zeros_length; lia.
Qed.

Lemma string_append_inj_l (s t t' : string) : (s ++ t)%string = (s ++ t')%string -> t = t'.
Proof. induction s as [|a s IH]; simpl; [auto | intros [= H]; auto]. Qed.

Lemma fmt_03d_suffix_inj (n m : nat) (s : string) :
  (fmt_03d n ++ s)%string = (fmt_03d m ++ s)%string -> n = m.
Proof.
  intros H; apply fmt_03d_inj.
  assert (Hlen : String.length (fmt_03d n) = String.length (fmt_03d m)).
  { apply (f_equal String.length) in H; rewrite !string_length_append in H; lia. }
  revert H Hlen; generalize (fmt_03d n) (fmt_03d m).
  induction s0 as [|a s0 IH]; intros [|b s1]; simpl; try discriminate; auto.
  intros [= -> H] [= Hlen]; f_equal; auto.
Qed.

(** X2: two identifiers have the same label, or the same file path, only when
    they are the same identifier. *)
Theorem cast_label_and_path_identify_the_cast (n m : nat) :
  (cast_label n = cast_label m <-> n = m) /\ (cast_path n = cast_path m <-> n = m).
Proof.
  split; split; try (intros ->; reflexivity).
  - apply cast_label_inj.
  - unfold cast_path; intros H; apply string_append_inj_l in H.
    now apply fmt_03d_suffix_inj in H.
Qed.

Lemma get_adcp_data_path (fs : disk) (cast : nat) :
  get_adcp_data fs cast = (mat_data <- fs (cast_path cast) ;; dict_get "dr" mat_data).
Proof. reflexivity. Qed.

(** ** The collection scan, continued *)

Lemma for_each_ext_in {A S : Type} (f g : S -> A -> result S) (xs : list A) :
  (forall st x, In x xs -> f st x = g st x) ->
  forall st, for_each f xs st = for_each g xs st.
Proof.
  induction xs as [|x xs IH]; intros H st; simpl; [reflexivity|].
  rewrite (H st x) by now left.
  destruct (g st x); simpl; [apply IH; intros; apply H; now right | reflexivity].
Qed.

(** X3: the scan reads nothing but the files of the identifiers [1..N]: two
    disks that agree on those paths give the same result, mapping or
    exception. *)
Theorem get_valid_casts_reads_only_its_files (fs1 fs2 : disk) (N : nat) :
  (forall c, (1 <= c <= N)%nat -> fs1 (cast_path c) = fs2 (cast_path c)) ->
  get_valid_casts fs1 N = get_valid_casts fs2 N.
Proof.
  intros H; unfold get_valid_casts, scan; f_equal.
  apply for_each_ext_in; intros st c Hc; apply in_seq in Hc.
  unfold scan_cast, try_cast; rewrite !get_adcp_data_path, H by lia; reflexivity.
Qed.

Lemma get_valid_casts_reads_only_its_files_witness :
  get_valid_casts demo_disk 8 = get_valid_casts demo_disk_with_strays 8.
Proof.
  apply (get_valid_casts_reads_only_its_files demo_disk demo_disk_with_strays 8).
  intros c Hc.
  assert (Hcases : (c = 1 \/ c = 2 \/ c = 3 \/ c = 4 \/ c = 5 \/ c = 6 \/ c = 7 \/ c = 8)%nat)
    by lia.
  repeat (destruct Hcases as [->|Hcases]); try subst c; reflexivity.
Defined.

Lemma NoDup_map_inj {A B : Type} (f : A -> B) (l : list A) :
  (forall x y, f x = f y -> x = y) -> NoDup l -> NoDup (map f l).
Proof.
  intros Hinj H; induction H as [|x l Hx _ IH]; simpl; constructor; [|exact IH].
  intros Hin; apply in_map_iff in Hin; destruct Hin as (y & Hy & Hin).
  apply Hinj in Hy; subst; contradiction.
Qed.

Lemma kept_entries_keys (fs : disk) (casts : list nat) :
  keys (kept_entries fs casts)
  = map cast_label (filter (fun c => match keep fs c with Some _ => true | None => false end)
                           casts).
Proof.
  unfold keys, kept_entries; induction casts as [|c casts IH]; simpl; [reflexivity|].
  destruct (keep fs c); simpl; now rewrite IH.
Qed.

Lemma scan_loop_entries (fs : disk) (casts : list nat) :
  forall st st',
    NoDup casts ->
    (forall c, In c casts -> ~ In (cast_label c) (keys (valid_casts st))) ->
    for_each (scan_cast fs) casts st = Ok st' ->
    valid_casts st' = valid_casts st ++ kept_entries fs casts.
Proof.
  induction casts as [|a casts IH]; intros st st' Hnd Hfresh H; simpl in H.
  - injection H as <-; simpl; now rewrite app_nil_r.
  - apply bind_Ok in H; destruct H as (st1 & H1 & H2).
    inversion Hnd as [|? ? Ha Hnd']; subst.
    pose proof (scan_cast_Ok _ _ _ _ H1) as Hvc.
    rewrite (IH st1 st' Hnd') ; [| |exact H2].
    + rewrite Hvc; simpl; destruct (keep fs a) as [dr|]; [|reflexivity].
      rewrite dict_set_fresh by (apply Hfresh; now left).
      now rewrite <- app_assoc.
    + intros c Hc; rewrite Hvc.
      destruct (keep fs a) as [dr|]; [|apply Hfresh; now right].
      rewrite dict_set_fresh by (apply Hfresh; now left).
      unfold keys; rewrite map_app, in_app_iff; simpl.
      intros [Hin|[Heq|[]]]; [revert Hin; apply Hfresh; now right|].
      apply cast_label_inj in Heq; subst; contradiction.
Qed.

Lemma get_valid_casts_kept (fs : disk) (N : nat) (vc : dict dr_t) :
  get_valid_casts fs N = Ok vc -> vc = kept_entries fs (seq 1 N).
Proof.
  unfold get_valid_casts, scan; intros H.
  apply bind_Ok in H; destruct H as (st & Hst & [= <-]).
  apply scan_loop_entries in Hst; [exact Hst | apply seq_NoDup | intros c _ []].
Qed.

Lemma kept_entries_NoDup (fs : disk) (s len : nat) : NoDup (keys (kept_entries fs (seq s len))).
Proof.
  rewrite kept_entries_keys.
  apply NoDup_map_inj; [intros x y; apply cast_label_inj|].
  apply NoDup_filter, seq_NoDup.
Qed.

(** X4: a mapping returned by the scan is the list of the retained casts in
    increasing order of identifier, each under its own label, and no label
    occurs twice. *)
Theorem get_valid_casts_is_the_ordered_list_of_kept_casts
        (fs : disk) (N : nat) (vc : dict dr_t) :
  get_valid_casts fs N = Ok vc ->
  vc = kept_entries fs (seq 1 N) /\ NoDup (keys vc).
Proof.
  intros H; apply get_valid_casts_kept in H; split; [exact H|].
  rewrite H; apply kept_entries_NoDup.
Qed.

Lemma get_valid_casts_ordered_witness :
  [("Cast008", cast_at (-32) (-571 # 5))] = kept_entries demo_disk (seq 1 8) /\
  NoDup (keys [("Cast008", cast_at (-32) (-571 # 5))]).
Proof.
  apply (get_valid_casts_is_the_ordered_list_of_kept_casts demo_disk 8).
  vm_compute; reflexivity.
Defined.

Lemma scan_cast_Raise (fs : disk) (st : scan_state) (c : nat) (e : exn) :
  scan_cast fs st c = Raise e <-> get_adcp_data fs c = Raise e /\ caught e = false.
Proof.
  unfold scan_cast, try_cast.
  destruct (get_adcp_data fs c) as [dr|e0]; simpl.
  - destruct (dr_lon dr) as [lon|]; simpl.
    + destruct (F64.ne lon (F64.of_Z 0) && negb (c =? 1)%nat);
        split; [discriminate | intros [H _]; discriminate H
               | discriminate | intros [H _]; discriminate H].
    + split; [discriminate | intros [H _]; discriminate H].
  - destruct (caught e0) eqn:E; split.
    + discriminate.
    + intros [[= ->] H]; congruence.
    + intros [= ->]; auto.
    + intros [[= ->] _]; reflexivity.
Qed.

Lemma scan_loop_Raise (fs : disk) (len : nat) :
  forall (s : nat) (st : scan_state) (e : exn),
    for_each (scan_cast fs) (seq s len) st = Raise e <->
    exists c, (s <= c < s + len)%nat /\ get_adcp_data fs c = Raise e /\ caught e = false /\
              forall c' e', (s <= c' < c)%nat -> get_adcp_data fs c' = Raise e' ->
                            caught e' = true.
Proof.
  induction len as [|len IH]; intros s st e; simpl.
  - split; [discriminate | intros (c & Hc & _); lia].
  - destruct (scan_cast fs st s) as [st1|e0] eqn:E; simpl.
    + assert (Hs : forall e', get_adcp_data fs s = Raise e' -> caught e' = true).
      { intros e' He'; destruct (caught e') eqn:Ec; [reflexivity|].
        assert (Hr : scan_cast fs st s = Raise e') by (apply scan_cast_Raise; auto).
        congruence. }
      rewrite IH; split.
      * intros (c & Hc & He & Hce & Hbefore).
        exists c; split; [lia|]; split; [exact He|]; split; [exact Hce|].
        intros c' e' Hc' He'.
        destruct (Nat.eq_dec c' s) as [->|Hne]; [now apply Hs|].
        apply (Hbefore c' e'); [lia | exact He'].
      * intros (c & Hc & He & Hce & Hbefore).
        assert (c <> s) by (intros ->; rewrite (Hs e He) in Hce; discriminate).
        exists c; split; [lia|]; split; [exact He|]; split; [exact Hce|].
        intros c' e' Hc'; apply Hbefore; lia.
    + apply scan_cast_Raise in E; destruct E as [He0 Hc0]; split.
      * intros [= <-]; exists s; split; [lia|]; split; [exact He0|]; split; [exact Hc0|].
        intros c' e' Hc'; lia.
      * intros (c & Hc & He & Hce & Hbefore).
        destruct (Nat.eq_dec c s) as [->|Hne]; [congruence|].
        rewrite (Hbefore s e0) in Hc0; [discriminate | lia | exact He0].
Qed.

(** X5: the scan raises exactly the exception of the first identifier in
    [1..N] whose load fails with something other than [FileNotFoundError] or
    [KeyError]; in particular it never raises one of these two. *)
Theorem get_valid_casts_raises_the_first_unhandled_failure (fs : disk) (N : nat) (e : exn) :
  get_valid_casts fs N = Raise e <->
  exists c, (1 <= c <= N)%nat /\ get_adcp_data fs c = Raise e /\ caught e = false /\
            forall c' e', (1 <= c' < c)%nat -> get_adcp_data fs c' = Raise e' ->
                          caught e' = true.
Proof.
  unfold get_valid_casts, scan.
  destruct (for_each (scan_cast fs) (seq 1 N) (mk_scan [] [])) as [st|e0] eqn:E; simpl.
  - split; [discriminate|].
    intros (c & Hc & He & Hce & Hbefore).
    assert (Hr : for_each (scan_cast fs) (seq 1 N) (mk_scan [] []) = Raise e).
    { apply scan_loop_Raise; exists c; split; [lia|]; split; [exact He|]; split; [exact Hce|].
      intros c' e' Hc'; apply Hbefore; lia. }
    congruence.
  - split.
    + intros [= ->]; apply scan_loop_Raise in E.
      destruct E as (c & Hc & He & Hce & Hbefore).
      exists c; split; [lia|]; split; [exact He|]; split; [exact Hce|].
      intros c' e' Hc'; apply Hbefore; lia.
    + intros (c & Hc & He & Hce & Hbefore).
      assert (Hr : for_each (scan_cast fs) (seq 1 N) (mk_scan [] []) = Raise e).
      { apply scan_loop_Raise; exists c; split; [lia|]; split; [exact He|]; split; [exact Hce|].
      intros c' e' Hc'; apply Hbefore; lia. }
      congruence.
Qed.

Lemma scan_cast_stdout (fs : disk) (st st1 : scan_state) (c : nat) :
  scan_cast fs st c = Ok st1 ->
  stdout st1 = stdout st ++ (if load_fails fs c then [""] else []).
Proof.
  unfold scan_cast, try_cast, load_fails.
  destruct (get_adcp_data fs c) as [dr|e]; simpl.
  - destruct (dr_lon dr) as [lon|]; simpl.
    + destruct (F64.ne lon (F64.of_Z 0) && negb (c =? 1)%nat);
        intros [= <-]; simpl; now rewrite app_nil_r.
    + intros [= <-]; reflexivity.
  - destruct (caught e); [intros [= <-]; reflexivity | discriminate].
Qed.

Lemma scan_loop_stdout (fs : disk) (casts : list nat) :
  forall st st', for_each (scan_cast fs) casts st = Ok st' ->
                 stdout st' = stdout st
                              ++ repeat "" (List.length (filter (load_fails fs) casts)).
Proof.
  induction casts as [|c casts IH]; intros st st' H; simpl in H.
  - injection H as <-; simpl; now rewrite app_nil_r.
  - apply bind_Ok in H; destruct H as (st1 & H1 & H2).
    rewrite (IH _ _ H2), (scan_cast_stdout _ _ _ _ H1); simpl.
    destruct (load_fails fs c); simpl; [now rewrite <- app_assoc | now rewrite app_nil_r].
Qed.

(** X6: a scan that returns has printed one empty line for each identifier in
    [1..N] whose load failed or whose record has no [lon], and nothing else. *)
Theorem scan_prints_one_empty_line_per_skipped_load (fs : disk) (N : nat) (st : scan_state) :
  scan fs N = Ok st ->
  stdout st = repeat "" (List.length (filter (load_fails fs) (seq 1 N))).
Proof. intros H; apply scan_loop_stdout in H; exact H. Qed.

Lemma scan_prints_witness :
  stdout (mk_scan [("Cast008", cast_at (-32) (-571 # 5))] [""; ""; ""; ""; ""])
  = repeat "" (List.length (filter (load_fails demo_disk) (seq 1 8))).
Proof.
  apply (scan_prints_one_empty_line_per_skipped_load demo_disk 8).
  vm_compute; reflexivity.
Defined.

(** X7: a cast whose record loads but has no [lon] field is left out of the
    mapping, whatever its identifier. *)
Theorem cast_without_lon_is_left_out
        (fs : disk) (N : nat) (vc : dict dr_t) (c : nat) (dr : dr_t) :
  get_valid_casts fs N = Ok vc ->
  get_adcp_data fs c = Ok dr -> dr_lon dr = None ->
  dict_lookup (cast_label c) vc = None.
Proof.
  intros Hvc Hdr Hlon; rewrite (get_valid_casts_lookup _ _ _ Hvc c).
  unfold keep; rewrite Hdr, Hlon; now destruct ((1 <=? c) && (c <=? N))%nat.
Qed.

Lemma cast_without_lon_witness :
  dict_lookup (cast_label 2) [("Cast003", cast_at (-32) (-571 # 5))] = None.
Proof.
  apply (cast_without_lon_is_left_out disk_without_lon 3 _ 2 cast_without_lon);
    vm_compute; reflexivity.
Defined.

(** ** The interpolator, continued *)

Lemma combine_columns (df : frame) : combine (combine (col_p df) (col_u df)) (col_v df) = df.
Proof.
  unfold col_p, col_u, col_v; induction df as [|[[p u] v] df IH]; simpl;
    [reflexivity | now rewrite IH].
Qed.

Lemma pd_DataFrame_Ok {A B C : Type} (a : list A) (b : list B) (c : list C)
      (df : list (A * B * C)) :
  pd_DataFrame a b c = Ok df <->
  List.length a = List.length b /\ List.length b = List.length c /\
  df = combine (combine a b) c.
Proof.
  unfold pd_DataFrame.
  destruct (Nat.eqb_spec (List.length a) (List.length b)) as [Hab|Hab];
    destruct (Nat.eqb_spec (List.length b) (List.length c)) as [Hbc|Hbc]; simpl;
    split; try discriminate; try (intros (? & ? & ?); congruence).
  intros [= <-]; auto.
Qed.

(** X8: [to_frame] returns a frame exactly when the record has [p], [u] and
    [v] and they are the columns of that frame; the three arrays then have
    one length. *)
Theorem to_frame_round_trip (dr : dr_t) (df : frame) :
  to_frame dr = Ok df <->
  dr_p dr = Some (col_p df) /\ dr_u dr = Some (col_u df) /\ dr_v dr = Some (col_v df).
Proof.
  unfold to_frame; split.
  - intros H.
    destruct (dr_p dr) as [p|]; [|discriminate].
    destruct (dr_u dr) as [u|]; [|discriminate].
    destruct (dr_v dr) as [v|]; [|discriminate].
    simpl in H; apply pd_DataFrame_Ok in H; destruct H as (Hpu & Huv & ->).
    unfold col_p, col_u, col_v.
    rewrite <- !map_map with (f := fst), map_snd_combine, !map_fst_combine,
      map_snd_combine;
      rewrite ?length_combine; try lia.
    auto.
  - intros (-> & -> & ->); simpl.
    apply pd_DataFrame_Ok; unfold col_p, col_u, col_v; rewrite !length_map.
    split; [reflexivity|]; split; [reflexivity|].
    symmetry; apply combine_columns.
Qed.

(** *** The maximum depth *)

Lemma F64_lt_Fin (a b : Q) : F64.lt (Fin a) (Fin b) = true <-> (a < b)%Q.
Proof.
  unfold F64.lt; rewrite Qlt_alt; destruct (a ?= b)%Q; split; congruence.
Qed.

Lemma np_max_fold_spec (xs : list float64) :
  forall a b,
    fold_left (fun acc x =>
                 match acc, x with
                 | _, NaN => acc
                 | NaN, _ => x
                 | _, _ => if F64.lt acc x then x else acc
                 end) xs (Fin a) = Fin b ->
    (b = a \/ In (Fin b) xs) /\ (a <= b)%Q /\ forall q, In (Fin q) xs -> (q <= b)%Q.
Proof.
  induction xs as [|x xs IH]; intros a b H; cbn [fold_left] in H.
  - injection H as <-; split; [now left|]; split; [apply Qle_refl | intros q []].
  - destruct x as [|q0].
    + destruct (IH a b H) as (Hin & Hab & Hall).
      split; [destruct Hin; [now left | right; now right]|].
      split; [exact Hab|]; intros q [Hq|Hq]; [discriminate | now apply Hall].
    + destruct (F64.lt (Fin a) (Fin q0)) eqn:E.
      * apply F64_lt_Fin in E; destruct (IH q0 b H) as (Hin & Hab & Hall).
        split; [right; destruct Hin as [->|Hin]; [now left | now right]|].
        split; [lra|]; intros q [[= <-]|Hq]; [exact Hab | now apply Hall].
      * assert (Hle : (q0 <= a)%Q).
        { apply Qnot_lt_le; intros Hlt; apply F64_lt_Fin in Hlt; congruence. }
        destruct (IH a b H) as (Hin & Hab & Hall).
        split; [destruct Hin; [now left | right; now right]|].
        split; [exact Hab|]; intros q [[= <-]|Hq]; [lra | now apply Hall].
Qed.

Lemma np_max_spec (xs : list float64) :
  match np_max xs with
  | NaN => forall q, ~ In (Fin q) xs
  | Fin b => In (Fin b) xs /\ forall q, In (Fin q) xs -> (q <= b)%Q
  end.
Proof.
  unfold np_max; induction xs as [|x xs IH]; cbn [fold_left]; [intros q []|].
  destruct x as [|q0].
  - destruct (fold_left _ xs NaN) as [|b].
    + intros q [Hq|Hq]; [discriminate | now apply (IH q)].
    + destruct IH as [Hin Hall]; split; [now right|].
      intros q [Hq|Hq]; [discriminate | now apply Hall].
  - destruct (np_max_fold_Fin xs q0) as [b Hb]; rewrite Hb.
    destruct (np_max_fold_spec xs q0 b Hb) as (Hin & Hab & Hall).
    split; [destruct Hin as [->|Hin]; [now left | now right]|].
    intros q [[= <-]|Hq]; [exact Hab | now apply Hall].
Qed.

Lemma select_joint_In (df : frame) (x : float64) :
  In x (select (col_p df) (joint_mask df)) <->
  exists u v, In (x, u, v) df /\ present u = true /\ present v = true.
Proof.
  unfold col_p, joint_mask, present; induction df as [|[[p u] v] df IH]; simpl.
  - split; [intros [] | intros (u & v & [] & _)].
  - destruct (negb (F64.isnan u)) eqn:Eu; destruct (negb (F64.isnan v)) eqn:Ev; simpl;
      rewrite IH; split;
      try (intros (u' & v' & Hin & Hu & Hv); exists u', v'; now auto);
      try (intros (u' & v' & [[= <- <- <-]|Hin] & Hu & Hv);
           [congruence | exists u', v'; now auto]).
    + intros [<-|(u' & v' & Hin & Hu & Hv)]; [exists u, v; auto | exists u', v'; auto].
    + intros (u' & v' & [[= <- <- <-]|Hin] & Hu & Hv); [now left | right; exists u', v'; auto].
Qed.

Lemma max_depth_of_eq (df : frame) :
  max_depth_of df
  = Ok (match np_max (select (col_p df) (joint_mask df)) with
        | NaN => NaN
        | Fin a => if F64.lt (F64.of_Z 2574) (Fin a) then F64.of_Z 2574 else Fin a
        end).
Proof.
  unfold max_depth_of; rewrite last_full_depth_range.
  destruct (np_max _); reflexivity.
Qed.

(** X9: when the maximum depth is a number, it is the largest pressure among
    the samples with [u] and [v] present, or the last grid depth, 2574, when
    that pressure is larger. *)
Theorem max_depth_is_the_deepest_joint_pressure_capped (df : frame) (m : Q) :
  max_depth_of df = Ok (Fin m) ->
  (m <= 2574)%Q /\
  (forall q u v, In (Fin q, u, v) df -> present u = true -> present v = true ->
                 (q <= m)%Q \/ m = inject_Z 2574) /\
  ((exists u v, In (Fin m, u, v) df /\ present u = true /\ present v = true) \/
   (m = inject_Z 2574 /\
    exists q u v, In (Fin q, u, v) df /\ present u = true /\ present v = true /\
                  (2574 < q)%Q)).
Proof.
  rewrite max_depth_of_eq; intros H.
  pose proof (np_max_spec (select (col_p df) (joint_mask df))) as Hmax.
  destruct (np_max (select (col_p df) (joint_mask df))) as [|a]; [discriminate|].
  destruct Hmax as [Hin Hall].
  apply select_joint_In in Hin; destruct Hin as (u0 & v0 & Hin & Hu0 & Hv0).
  destruct (F64.lt (F64.of_Z 2574) (Fin a)) eqn:E; injection H as <-.
  - apply F64_lt_Fin in E; change (inject_Z 2574) with 2574%Q in *.
    split; [apply Qle_refl|]; split; [intros; now right|].
    right; split; [reflexivity|]; exists a, u0, v0; auto.
  - assert (Hle : (a <= 2574)%Q).
    { apply Qnot_lt_le; intros Hlt.
      assert (F64.lt (F64.of_Z 2574) (Fin a) = true) by (now apply F64_lt_Fin).
      congruence. }
    split; [exact Hle|]; split.
    + intros q u v Hq Hu Hv; left; apply Hall, select_joint_In; exists u, v; auto.
    + left; exists u0, v0; auto.
Qed.

Lemma max_depth_witness :
  (8 <= 2574)%Q /\
  (forall q u v, In (Fin q, u, v) (example_frame 1 1 1 1) ->
                 present u = true -> present v = true ->
                 (q <= 8)%Q \/ 8%Q = inject_Z 2574) /\
  ((exists u v, In (Fin 8, u, v) (example_frame 1 1 1 1) /\
                present u = true /\ present v = true) \/
   (8%Q = inject_Z 2574 /\
    exists q u v, In (Fin q, u, v) (example_frame 1 1 1 1) /\
                  present u = true /\ present v = true /\ (2574 < q)%Q)).
Proof.
  apply (max_depth_is_the_deepest_joint_pressure_capped (example_frame 1 1 1 1) 8).
  vm_compute; reflexivity.
Defined.

(** *** When [interpolate_cast] returns, and what *)

Lemma max_depth_Fin_bound (df : frame) (m : Q) :
  max_depth_of df = Ok (Fin m) -> (m <= 2574)%Q /\ df <> [].
Proof.
  intros H; split.
  - rewrite max_depth_of_eq in H.
    destruct (np_max (select (col_p df) (joint_mask df))) as [|a]; [discriminate|].
    destruct (F64.lt (F64.of_Z 2574) (Fin a)) eqn:E; injection H as <-.
    + apply Qle_refl.
    + apply Qnot_lt_le; intros Hlt.
      assert (F64.lt (F64.of_Z 2574) (Fin a) = true) by (now apply F64_lt_Fin).
      congruence.
  - intros ->; discriminate H.
Qed.

Lemma interpolate_cast_Fin (df : frame) (m : Q) :
  max_depth_of df = Ok (Fin m) -> interpolate_cast df = Ok (interp_frame df m).
Proof.
  intros Hm; destruct (max_depth_Fin_bound df m Hm) as [Hle Hne].
  pose proof (depth_count_le m Hle) as Hcount.
  assert (Hne' : (List.length (col_p df) =? 0)%nat = false)
    by (destruct df; [congruence | reflexivity]).
  unfold interp_frame.
  set (xs := map (fun i => F64.of_Z (2 + Z.of_nat i * 2)) (seq 0 (depth_count m))).
  assert (Hxs : List.length xs = depth_count m)
    by (unfold xs; now rewrite length_map, length_seq).
  set (ue := map (interp_at (col_p df) (col_u df) NaN NaN) xs
             ++ repeat NaN (1287 - depth_count m)).
  set (ve := map (interp_at (col_p df) (col_v df) NaN NaN) xs
             ++ repeat NaN (1287 - depth_count m)).
  assert (Hue : List.length ue = 1287%nat)
    by (unfold ue; rewrite length_app, length_map, repeat_length, Hxs; lia).
  assert (Hve : List.length ve = 1287%nat)
    by (unfold ve; rewrite length_app, length_map, repeat_length, Hxs; lia).
  unfold interpolate_cast; rewrite Hm; cbn [bind].
  unfold F64.add, F64.lift2, F64.of_Z, np_arange; fold F64.of_Z.
  change (inject_Z 1) with 1%Q; change (inject_Z 2) with 2%Q.
  fold (depth_count m); fold xs; cbn [bind].
  unfold np_interp; rewrite Hne'.
  replace (List.length (col_u df) =? List.length (col_p df))%nat with true
    by (unfold col_u, col_p; rewrite !length_map; symmetry; apply Nat.eqb_refl).
  replace (List.length (col_v df) =? List.length (col_p df))%nat with true
    by (unfold col_v, col_p; rewrite !length_map; symmetry; apply Nat.eqb_refl).
  cbn [negb bind].
  unfold assign_prefix, np_full_like.
  rewrite !length_map, Hxs, repeat_length, full_depth_range_length.
  replace (depth_count m <=? 1287)%nat with true by (symmetry; now apply Nat.leb_le).
  cbn [bind]; rewrite skipn_repeat; fold ue; fold ve.
  unfold pd_DataFrame; rewrite Hue, Hve, full_depth_range_length; reflexivity.
Qed.

Lemma interpolate_cast_NaN (df : frame) :
  max_depth_of df = Ok NaN ->
  interpolate_cast df = Raise (ValueError "arange: cannot compute length").
Proof. intros H; unfold interpolate_cast; rewrite H; reflexivity. Qed.

Lemma interp_frame_columns (df : frame) (m : Q) :
  (m <= 2574)%Q ->
  p_int (interp_frame df m) = full_depth_range /\
  u_int (interp_frame df m)
  = map (interp_at (col_p df) (col_u df) NaN NaN)
        (map (fun i => F64.of_Z (2 + Z.of_nat i * 2)) (seq 0 (depth_count m)))
    ++ repeat NaN (1287 - depth_count m) /\
  v_int (interp_frame df m)
  = map (interp_at (col_p df) (col_v df) NaN NaN)
        (map (fun i => F64.of_Z (2 + Z.of_nat i * 2)) (seq 0 (depth_count m)))
    ++ repeat NaN (1287 - depth_count m).
Proof.
  intros Hle; pose proof (depth_count_le m Hle) as Hcount.
  unfold interp_frame, p_int, u_int, v_int.
  rewrite <- !map_map with (f := fst).
  rewrite !map_fst_combine, !map_snd_combine;
    rewrite ?length_combine, ?length_app, ?length_map, ?repeat_length, ?length_seq,
      ?full_depth_range_length; try lia.
  auto.
Qed.

Lemma usable_spec (df : frame) :
  usable df = true <->
  exists q u v, In (Fin q, u, v) df /\ present u = true /\ present v = true.
Proof.
  unfold usable; rewrite existsb_exists; split.
  - intros ([[p u] v] & Hin & H); simpl in H.
    apply andb_true_iff in H; destruct H as [H Hv].
    apply andb_true_iff in H; destruct H as [Hp Hu].
    destruct p as [|q]; [discriminate|]; exists q, u, v; auto.
  - intros (q & u & v & Hin & Hu & Hv); exists (Fin q, u, v); simpl.
    now rewrite Hu, Hv.
Qed.

Lemma max_depth_usable (df : frame) :
  if usable df
  then exists m, max_depth_of df = Ok (Fin m)
  else max_depth_of df = Ok NaN.
Proof.
  rewrite max_depth_of_eq.
  pose proof (np_max_spec (select (col_p df) (joint_mask df))) as Hmax.
  destruct (usable df) eqn:E.
  - apply usable_spec in E; destruct E as (q & u & v & Hin & Hu & Hv).
    destruct (np_max _) as [|a].
    + exfalso; apply (Hmax q), select_joint_In; exists u, v; auto.
    + destruct (F64.lt (F64.of_Z 2574) (Fin a));
        [exists (inject_Z 2574) | exists a]; reflexivity.
  - destruct (np_max _) as [|a]; [reflexivity|].
    destruct Hmax as [Hin _]; apply select_joint_In in Hin.
    destruct Hin as (u & v & Hin & Hu & Hv).
    assert (usable df = true) by (apply usable_spec; exists a, u, v; auto).
    congruence.
Qed.

(** X10: [interpolate_cast] returns a frame, of the length of the grid and
    with the grid as its depth column, when some row of the cast has [p], [u]
    and [v] all present; for every other cast, an empty one included, it
    raises the [ValueError] of [np.arange]. *)
Theorem interpolate_cast_returns_iff_usable (df : frame) :
  if usable df
  then exists out, interpolate_cast df = Ok out /\
                   p_int out = full_depth_range /\
                   List.length out = List.length full_depth_range
  else interpolate_cast df = Raise (ValueError "arange: cannot compute length").
Proof.
  pose proof (max_depth_usable df) as H; destruct (usable df).
  - destruct H as [m Hm]; exists (interp_frame df m).
    destruct (max_depth_Fin_bound df m Hm) as [Hle _].
    destruct (interp_frame_columns df m Hle) as (Hp & _ & _).
    split; [now apply interpolate_cast_Fin|]; split; [exact Hp|].
    rewrite <- Hp; unfold p_int; now rewrite length_map.
  - now apply interpolate_cast_NaN.
Qed.

Lemma interpolate_cast_Ok_inv (df : frame) (out : iframe) :
  interpolate_cast df = Ok out ->
  exists m, max_depth_of df = Ok (Fin m) /\ out = interp_frame df m.
Proof.
  intros H; pose proof (max_depth_usable df) as Hm; destruct (usable df).
  - destruct Hm as [m Hm]; exists m; split; [exact Hm|].
    rewrite (interpolate_cast_Fin df m Hm) in H; congruence.
  - rewrite (interpolate_cast_NaN df Hm) in H; discriminate.
Qed.

(** *** No extrapolation *)

Lemma interp_at_below (dx dy : list float64) (x : float64) :
  F64.lt x (hd NaN dx) = true -> interp_at dx dy NaN NaN x = NaN.
Proof.
  intros H; assert (Hx : F64.isnan x = false) by (destruct x; [discriminate | reflexivity]).
  assert (Hhd : nth 0 dx NaN = hd NaN dx) by (destruct dx; reflexivity).
  unfold interp_at, binary_search_with_guess; rewrite Hx, Hhd, H.
  destruct (List.length dx =? 1)%nat; [reflexivity|].
  destruct (F64.gt x (nth (List.length dx - 1) dx NaN)).
  - destruct (Z.eqb_spec (Z.of_nat (List.length dx)) (-1)); [lia|].
    now rewrite Z.eqb_refl.
  - reflexivity.
Qed.

Lemma nth_last {A : Type} (l : list A) (d : A) : nth (List.length l - 1) l d = last l d.
Proof.
  induction l as [|a l IH]; [reflexivity|].
  destruct l as [|b l]; [reflexivity|].
  replace (List.length (a :: b :: l) - 1)%nat with (S (List.length (b :: l) - 1))
    by (simpl; lia).
  change (nth (S (List.length (b :: l) - 1)) (a :: b :: l) d)
    with (nth (List.length (b :: l) - 1) (b :: l) d).
  rewrite IH; reflexivity.
Qed.

Lemma interp_at_above (dx dy : list float64) (x : float64) :
  F64.gt x (last dx NaN) = true -> interp_at dx dy NaN NaN x = NaN.
Proof.
  intros H; assert (Hx : F64.isnan x = false).
  { destruct x; [|reflexivity]. unfold F64.gt, F64.lt in H; destruct (last dx NaN); discriminate. }
  unfold interp_at, binary_search_with_guess; rewrite Hx.
  destruct (Nat.eqb_spec (List.length dx) 1) as [H1|H1].
  - rewrite <- nth_last, H1 in H; simpl in H; rewrite H.
    destruct (F64.lt x (nth 0 dx NaN)); reflexivity.
  - rewrite nth_last, H.
    destruct (Z.eqb_spec (Z.of_nat (List.length dx)) (-1)); [lia|].
    now rewrite Z.eqb_refl.
Qed.

(** X11: no extrapolation: in a frame [interpolate_cast] returns, [u] and
    [v] are missing at every grid depth that lies below the first or above
    the last pressure sample of the cast. *)
Theorem interpolate_cast_never_extrapolates
        (df : frame) (out : iframe) (i : nat) (z : Z) (u v : float64) :
  interpolate_cast df = Ok out ->
  nth_error out i = Some (z, u, v) ->
  F64.lt (F64.of_Z z) (hd NaN (col_p df)) = true \/
  F64.gt (F64.of_Z z) (last (col_p df) NaN) = true ->
  u = NaN /\ v = NaN.
Proof.
  intros Hrun Hnth Hout.
  apply interpolate_cast_Ok_inv in Hrun; destruct Hrun as (m & Hm & ->).
  destruct (max_depth_Fin_bound df m Hm) as [Hle _].
  destruct (interp_frame_columns df m Hle) as (Hp & Hu & Hv).
  assert (Hz : nth_error (p_int (interp_frame df m)) i = Some z)
    by (unfold p_int; rewrite nth_error_map, Hnth; reflexivity).
  assert (Hui : nth_error (u_int (interp_frame df m)) i = Some u)
    by (unfold u_int; rewrite nth_error_map, Hnth; reflexivity).
  assert (Hvi : nth_error (v_int (interp_frame df m)) i = Some v)
    by (unfold v_int; rewrite nth_error_map, Hnth; reflexivity).
  rewrite Hp in Hz; rewrite Hu in Hui; rewrite Hv in Hvi.
  assert (Hi : (i < 1287)%nat).
  { rewrite <- full_depth_range_length; apply nth_error_Some; congruence. }
  rewrite (full_depth_range_nth i Hi) in Hz.
  assert (Hzi : z = (2 + 2 * Z.of_nat i)%Z) by congruence.
  rewrite Hzi in Hout; clear Hzi Hz.
  assert (Hcell : forall dy w,
             nth_error (map (interp_at (col_p df) dy NaN NaN)
                            (map (fun i => F64.of_Z (2 + Z.of_nat i * 2))
                                 (seq 0 (depth_count m)))
                        ++ repeat NaN (1287 - depth_count m)) i = Some w ->
             w = NaN).
  { intros dy w Hw; rewrite nth_error_app in Hw.
    rewrite !length_map, length_seq in Hw.
    destruct (Nat.ltb_spec i (depth_count m)) as [Hlt|Hge].
    - rewrite !nth_error_map in Hw.
      rewrite nth_error_nth' with (d := 0%nat) in Hw by (rewrite length_seq; lia).
      rewrite seq_nth in Hw by lia; cbn [option_map Nat.add] in Hw.
      assert (Hw' : w = interp_at (col_p df) dy NaN NaN (F64.of_Z (2 + Z.of_nat i * 2)))
        by congruence.
      rewrite Hw'; replace (2 + Z.of_nat i * 2)%Z with (2 + 2 * Z.of_nat i)%Z by lia.
      destruct Hout as [Hlo|Hhi]; [now apply interp_at_below | now apply interp_at_above].
    - apply nth_error_In, repeat_spec in Hw; exact Hw. }
  split; [apply (Hcell _ _ Hui) | apply (Hcell _ _ Hvi)].
Qed.

Lemma never_extrapolates_witness :
  snd (fst (nth 1 between_grid_out (0%Z, Fin 0, Fin 0))) = NaN /\
  snd (nth 1 between_grid_out (0%Z, Fin 0, Fin 0)) = NaN.
Proof.
  apply (interpolate_cast_never_extrapolates between_grid_frame between_grid_out 1 4).
  - vm_compute; reflexivity.
  - vm_compute; reflexivity.
  - left; vm_compute; reflexivity.
Defined.

(** *** The rows of an interpolated frame *)




(** *** [process_casts] as a whole *)

Lemma dict_set_In {V : Type} (k : string) (v : V) (d : dict V) (kv : string * V) :
  In kv (dict_set k v d) -> kv = (k, v) \/ In kv d.
Proof.
  induction d as [|[k' v'] d IH]; simpl.
  - intros [<-|[]]; now left.
  - destruct (String.eqb k k'); simpl.
    + intros [<-|H]; [now left | right; now right].
    + intros [<-|H]; [right; now left|].
      destruct (IH H); [now left | right; now right].
Qed.

(** Whatever the keys, every entry of the dictionary a storing loop returns
    was there before or is a result of the loop's function. *)
Lemma for_each_dict_set_from {A B : Type} (f : A -> result B) (xs : list (string * A)) :
  forall (acc out : dict B),
    for_each (fun d '(k, x) => y <- f x ;; Ok (dict_set k y d)) xs acc = Ok out ->
    forall kv, In kv out -> In kv acc \/ exists k x, In (k, x) xs /\ f x = Ok (snd kv).
Proof.
  induction xs as [|[k0 x0] xs IH]; intros acc out H kv Hin; simpl in H.
  - injection H as <-; now left.
  - apply bind_Ok in H; destruct H as (d1 & H1 & H2).
    apply bind_Ok in H1; destruct H1 as (y0 & Hy0 & [= <-]).
    destruct (IH _ _ H2 kv Hin) as [Hacc|(k & x & Hx & Hfx)].
    + apply dict_set_In in Hacc; destruct Hacc as [->|Hacc]; [|now left].
      right; exists k0, x0; split; [now left | exact Hy0].
    + right; exists k, x; split; [now right | exact Hfx].
Qed.

(** X13: the grid is shared: in every mapping [process_casts] returns, every
    frame has the 1287 grid depths as its depth column. *)
Theorem process_casts_frames_share_the_grid
        (vc : dict dr_t) (ci : dict iframe) (label : string) (out : iframe) :
  process_casts vc = Ok ci -> In (label, out) ci ->
  p_int out = full_depth_range /\ List.length out = 1287%nat.
Proof.
  unfold process_casts, items; intros H Hin.
  apply bind_Ok in H; destruct H as (Cdata & _ & H).
  destruct (for_each_dict_set_from interpolate_cast Cdata [] ci H (label, out) Hin)
    as [[]|(k & df & _ & Hrun)].
  simpl in Hrun; apply interpolate_cast_Ok_inv in Hrun; destruct Hrun as (m & Hm & ->).
  destruct (max_depth_Fin_bound df m Hm) as [Hle _].
  destruct (interp_frame_columns df m Hle) as (Hp & _ & _).
  split; [exact Hp|].
  rewrite <- full_depth_range_length, <- Hp; unfold p_int; now rewrite length_map.
Qed.

Lemma frames_share_the_grid_witness :
  p_int two_sample_out = full_depth_range /\ List.length two_sample_out = 1287%nat.
Proof.
  apply (process_casts_frames_share_the_grid
           [("Cast002", cast_at (-32) (-571 # 5))] [("Cast002", two_sample_out)] "Cast002").
  - vm_compute; reflexivity.
  - simpl; auto.
Defined.

Lemma for_each_dict_set_spec {A B : Type} (f : A -> result B) (xs : list (string * A)) :
  forall (acc out : dict B),
    NoDup (keys acc ++ keys xs) ->
    (for_each (fun d '(k, x) => y <- f x ;; Ok (dict_set k y d)) xs acc = Ok out <->
     exists ys, out = acc ++ ys /\
                Forall2 (fun kx ky => fst kx = fst ky /\ f (snd kx) = Ok (snd ky)) xs ys).
Proof.
  induction xs as [|[k0 x0] xs IH]; intros acc out Hnd; simpl.
  - split.
    + intros [= <-]; exists []; split; [now rewrite app_nil_r | constructor].
    + intros (ys & -> & Hys); inversion Hys; now rewrite app_nil_r.
  - assert (Hfresh : ~ In k0 (keys acc)).
    { simpl in Hnd; apply NoDup_remove_2 in Hnd; intros Hin; apply Hnd, in_or_app; now left. }
    assert (Hnd' : forall y0, NoDup (keys (acc ++ [(k0, y0)]) ++ keys xs)).
    { intros y0; unfold keys in *; rewrite map_app; simpl in *; now rewrite <- app_assoc. }
    split.
    + intros H; apply bind_Ok in H; destruct H as (d1 & H1 & H2).
      apply bind_Ok in H1; destruct H1 as (y0 & Hy0 & [= <-]).
      rewrite (dict_set_fresh _ _ _ Hfresh) in H2.
      apply (IH _ _ (Hnd' y0)) in H2; destruct H2 as (ys & -> & Hys).
      exists ((k0, y0) :: ys); split; [now rewrite <- app_assoc|].
      constructor; auto.
    + intros (ys & -> & Hys).
      inversion Hys as [|kx [k1 y0] xs' ys' [Hk Hy0] Hys']; subst; simpl in *; subst k1.
      rewrite Hy0; simpl; rewrite (dict_set_fresh _ _ _ Hfresh).
      apply (IH _ _ (Hnd' y0)); exists ys'; split; [now rewrite <- app_assoc | exact Hys'].
Qed.

Lemma Forall2_keys {A B : Type} (R : A -> B -> Prop) (xs : dict A) (ys : dict B) :
  Forall2 (fun kx ky => fst kx = fst ky /\ R (snd kx) (snd ky)) xs ys -> keys ys = keys xs.
Proof.
  unfold keys; induction 1 as [|kx ky xs ys [Hk _] _ IH]; simpl; [reflexivity|].
  now rewrite IH, Hk.
Qed.

Lemma Forall2_compose {A B C : Type} (R1 : A -> B -> Prop) (R2 : B -> C -> Prop)
      (xs : list A) (ys : list B) (zs : list C) :
  Forall2 R1 xs ys -> Forall2 R2 ys zs ->
  Forall2 (fun x z => exists y, R1 x y /\ R2 y z) xs zs.
Proof.
  intros H; revert zs; induction H as [|x y xs ys Hxy _ IH]; intros zs Hz;
    inversion Hz; subst; constructor; eauto.
Qed.

Lemma Forall2_split {A B C : Type} (R1 : A -> B -> Prop) (R2 : B -> C -> Prop)
      (xs : list A) (zs : list C) :
  Forall2 (fun x z => exists y, R1 x y /\ R2 y z) xs zs ->
  exists ys, Forall2 R1 xs ys /\ Forall2 R2 ys zs.
Proof.
  induction 1 as [|x z xs zs (y & H1 & H2) _ (ys & IH1 & IH2)].
  - exists []; split; constructor.
  - exists (y :: ys); split; constructor; auto.
Qed.

(** X14: on a mapping without repeated labels, [process_casts] returns
    exactly when every cast has a frame and that frame interpolates; the
    result then has the same labels in the same order, each with the
    interpolated frame of its cast. *)
Theorem process_casts_returns_iff_every_cast_interpolates
        (vc : dict dr_t) (ci : dict iframe) :
  NoDup (keys vc) ->
  (process_casts vc = Ok ci <->
   Forall2 (fun kd ko => fst kd = fst ko /\
                         exists df, to_frame (snd kd) = Ok df /\
                                    interpolate_cast df = Ok (snd ko)) vc ci).
Proof.
  intros Hnd; unfold process_casts, items; split.
  - intros H; apply bind_Ok in H; destruct H as (Cdata & H1 & H2).
    apply for_each_dict_set_spec in H1; [|exact Hnd].
    destruct H1 as (ys & -> & Hys); simpl in H2.
    apply for_each_dict_set_spec in H2;
      [|simpl; rewrite (Forall2_keys (fun x y => to_frame x = Ok y) _ _ Hys); exact Hnd].
    destruct H2 as (zs & -> & Hzs); simpl.
    pose proof (Forall2_compose _ _ _ _ _ Hys Hzs) as Hc.
    revert Hc; apply Forall2_impl.
    intros [k dr] [k' out] ([k0 df] & [Hk1 H1] & [Hk2 H2]); simpl in *.
    split; [congruence | exists df; auto].
  - intros H.
    assert (Hc : Forall2 (fun kd ko =>
                            exists kf : string * frame,
                              (fst kd = fst kf /\ to_frame (snd kd) = Ok (snd kf)) /\
                              (fst kf = fst ko /\ interpolate_cast (snd kf) = Ok (snd ko)))
                         vc ci).
    { revert H; apply Forall2_impl.
      intros [k dr] [k' out] [Hk (df & H1 & H2)]; simpl in *.
      exists (k, df); simpl; auto. }
    apply Forall2_split in Hc; destruct Hc as (Cdata & Hys & Hzs).
    assert (H1 : for_each (fun d '(k, x) => y <- to_frame x ;; Ok (dict_set k y d)) vc []
                 = Ok Cdata).
    { apply for_each_dict_set_spec; [exact Hnd | exists Cdata; auto]. }
    rewrite H1; simpl.
    apply for_each_dict_set_spec;
      [simpl; rewrite (Forall2_keys (fun x y => to_frame x = Ok y) _ _ Hys); exact Hnd
      | exists ci; auto].
Qed.

Lemma process_casts_returns_iff_witness :
  process_casts [("Cast002", cast_at (-32) (-571 # 5))] = Ok [("Cast002", two_sample_out)] <->
  Forall2 (fun kd ko => fst kd = fst ko /\
                        exists df, to_frame (snd kd) = Ok df /\
                                   interpolate_cast df = Ok (snd ko))
          [("Cast002", cast_at (-32) (-571 # 5))] [("Cast002", two_sample_out)].
Proof.
  apply (process_casts_returns_iff_every_cast_interpolates
           [("Cast002", cast_at (-32) (-571 # 5))] [("Cast002", two_sample_out)]).
  repeat constructor; simpl; tauto.
Defined.

(** X15: all frames are built before any is interpolated: when the first
    cast without a frame (a missing [p], [u] or [v], or arrays of different
    lengths) fails with [e], [process_casts] raises [e], whatever the casts
    before it would do in the interpolation. *)
Theorem process_casts_raises_the_first_frame_error
        (pre post : dict dr_t) (label : string) (dr : dr_t) (e : exn) :
  Forall (fun kd => exists df, to_frame (snd kd) = Ok df) pre ->
  to_frame dr = Raise e ->
  process_casts (pre ++ (label, dr) :: post) = Raise e.
Proof.
  intros Hpre He; unfold process_casts, items; rewrite for_each_app.
  assert (Hok : forall acc, exists acc',
               for_each (fun Cdata '(cast, data) =>
                           df <- to_frame data ;; Ok (dict_set cast df Cdata)) pre acc
               = Ok acc').
  { induction Hpre as [|[k d] pre (df & Hdf) _ IH]; intros acc; simpl; [eauto|].
    simpl in Hdf; rewrite Hdf; simpl; apply IH. }
  destruct (Hok []) as [acc' ->]; simpl; rewrite He; reflexivity.
Qed.

Lemma first_frame_error_witness :
  process_casts ([("Cast002", hollow_cast)]
                 ++ ("Cast003", cast_without_u) :: [("Cast004", cast_at (-32) (-115))])
  = Raise (KeyError "u").
Proof.
  apply (process_casts_raises_the_first_frame_error
           [("Cast002", hollow_cast)] [("Cast004", cast_at (-32) (-115))]
           "Cast003" cast_without_u (KeyError "u")).
  - constructor; [exists hollow_frame; reflexivity | constructor].
  - reflexivity.
Defined.

(** ** The renderer, continued *)

Lemma highlight_drawn_position (Cdata_interpolated : dict iframe) (valid_casts : dict dr_t)
      (cast : string) (df : iframe) (st : plot_state) (ind : Z) (color : string) :
  dict_lookup cast Cdata_interpolated = Some df ->
  (0 <= ind)%Z -> drawn df ind = true ->
  highlight Cdata_interpolated valid_casts cast st (ind, color)
  = ('(lat, lon) <- position valid_casts cast ;;
     Ok (draw lon lat df st (ind, color))).
Proof.
  intros Hdf H0 Hd; unfold drawn in Hd; apply andb_true_iff in Hd; destruct Hd as [Hlt Hu].
  apply Z.ltb_lt in Hlt; apply negb_true_iff in Hu.
  unfold highlight, position, draw; rewrite (dict_get_Some _ _ _ Hdf); cbn [bind].
  destruct (Z.leb_spec (Z.of_nat (List.length df)) ind); [lia|].
  rewrite (series_getitem_in_bounds (u_int df) ind NaN) by (rewrite u_int_length; lia).
  rewrite (series_getitem_in_bounds (v_int df) ind NaN) by (rewrite v_int_length; lia).
  cbn [bind]; rewrite Hu.
  destruct (dict_get cast valid_casts) as [dr|e]; cbn [bind]; [|reflexivity].
  destruct (field "lat" (dr_lat dr)) as [lat|e]; cbn [bind]; [|reflexivity].
  destruct (field "lon" (dr_lon dr)) as [lon|e]; reflexivity.
Qed.

Lemma highlight_negative (Cdata_interpolated : dict iframe) (valid_casts : dict dr_t)
      (cast : string) (df : iframe) (st : plot_state) (ind : Z) (color : string) :
  dict_lookup cast Cdata_interpolated = Some df ->
  (ind < 0)%Z ->
  highlight Cdata_interpolated valid_casts cast st (ind, color)
  = Raise (KeyError (str_of_Z ind)).
Proof.
  intros Hdf H0; unfold highlight; rewrite (dict_get_Some _ _ _ Hdf); cbn [bind].
  destruct (Z.leb_spec (Z.of_nat (List.length df)) ind); [lia|].
  unfold series_getitem; destruct (Z.ltb_spec ind 0); [reflexivity | lia].
Qed.

Lemma plot_first_cast (Cdata_rest : dict iframe) (valid_casts : dict dr_t) (nc : rasters)
      (path : string) (bands : list string) (indices : list Z) (colors : list string)
      (cast : string) (df : iframe) (e : exn) :
  nc path = Ok bands -> existsb (String.eqb "Band1") bands = true ->
  plot_cast ((cast, df) :: Cdata_rest) valid_casts indices colors
            (mk_plot [plt_figure 14 10; band_plot "Band1"] [] [] None None) cast
  = Raise e ->
  plot_adcp_data ((cast, df) :: Cdata_rest) valid_casts nc path indices colors = Raise e.
Proof.
  intros Hnc Hband Hcast.
  unfold plot_adcp_data, band; rewrite Hnc; cbn [bind]; rewrite Hband; cbn [bind].
  unfold keys; cbn [map fst for_each]; rewrite Hcast; reflexivity.
Qed.

(** X16: a negative highlight index is not counted from the end: when the
    pairs before it are skipped for the first cast, the renderer stops with
    a [KeyError] for that index. *)
Theorem negative_index_raises_key_error
        (Cdata_rest : dict iframe) (valid_casts : dict dr_t) (nc : rasters)
        (path : string) (bands : list string) (indices : list Z) (colors : list string)
        (cast : string) (df : iframe)
        (pre post : list (Z * string)) (ind : Z) (color : string) :
  nc path = Ok bands -> existsb (String.eqb "Band1") bands = true ->
  combine indices colors = pre ++ (ind, color) :: post ->
  forallb (fun pair => skipped df (fst pair)) pre = true ->
  (ind < 0)%Z ->
  plot_adcp_data ((cast, df) :: Cdata_rest) valid_casts nc path indices colors
  = Raise (KeyError (str_of_Z ind)).
Proof.
  intros Hnc Hband Hpairs Hpre Hneg.
  assert (Hdf : dict_lookup cast ((cast, df) :: Cdata_rest) = Some df)
    by (simpl; now rewrite String.eqb_refl).
  apply (plot_first_cast _ _ _ _ bands); auto.
  unfold plot_cast; rewrite Hpairs, for_each_app.
  rewrite (highlight_loop_skipped _ valid_casts cast df Hdf _ _ Hpre); cbn [bind for_each].
  rewrite (highlight_negative _ _ _ df) by auto; reflexivity.
Qed.

Lemma negative_index_witness :
  plot_adcp_data [("Cast002", short_out)] two_casts any_raster "bathymetry.nc"
                 [5; -1]%Z ["red"; "blue"]
  = Raise (KeyError "-1").
Proof.
  exact (negative_index_raises_key_error
           [] two_casts any_raster "bathymetry.nc" ["Band1"] [5; -1]%Z ["red"; "blue"]
           "Cast002" short_out [(5%Z, "red")] [] (-1)%Z "blue"
           eq_refl eq_refl eq_refl eq_refl eq_refl).
Defined.

(** X17: the position of a cast is looked up only when one of its pairs is
    drawn: when the pairs before the first drawn pair of the first cast are
    skipped and the lookup of [lat] and [lon] fails, for a label that is not
    in [valid_casts] or a record without the field, the renderer raises
    that [KeyError]. *)
Theorem drawn_pair_needs_the_position
        (Cdata_rest : dict iframe) (valid_casts : dict dr_t) (nc : rasters)
        (path : string) (bands : list string) (indices : list Z) (colors : list string)
        (cast : string) (df : iframe)
        (pre post : list (Z * string)) (ind : Z) (color : string) (e : exn) :
  nc path = Ok bands -> existsb (String.eqb "Band1") bands = true ->
  combine indices colors = pre ++ (ind, color) :: post ->
  forallb (fun pair => skipped df (fst pair)) pre = true ->
  (0 <= ind)%Z -> drawn df ind = true ->
  position valid_casts cast = Raise e ->
  plot_adcp_data ((cast, df) :: Cdata_rest) valid_casts nc path indices colors = Raise e.
Proof.
  intros Hnc Hband Hpairs Hpre H0 Hd Hpos.
  assert (Hdf : dict_lookup cast ((cast, df) :: Cdata_rest) = Some df)
    by (simpl; now rewrite String.eqb_refl).
  apply (plot_first_cast _ _ _ _ bands); auto.
  unfold plot_cast; rewrite Hpairs, for_each_app.
  rewrite (highlight_loop_skipped _ valid_casts cast df Hdf _ _ Hpre); cbn [bind for_each].
  rewrite (highlight_drawn_position _ _ _ df) by auto.
  rewrite Hpos; reflexivity.
Qed.

Lemma drawn_pair_needs_the_position_witness :
  plot_adcp_data [("Cast002", short_out)] [("Cast002", cast_without_lat)] any_raster
                 "bathymetry.nc" [5; 1]%Z ["red"; "blue"]
  = Raise (KeyError "lat").
Proof.
  exact (drawn_pair_needs_the_position
           [] [("Cast002", cast_without_lat)] any_raster "bathymetry.nc" ["Band1"]
           [5; 1]%Z ["red"; "blue"] "Cast002" short_out [(5%Z, "red")] [] 1%Z "blue"
           (KeyError "lat") eq_refl eq_refl eq_refl eq_refl Z.le_0_1 eq_refl eq_refl).
Defined.

(** *** When the renderer returns *)








(** ** The pipeline: scan, interpolation, rendering *)







(** *** How the renderer can fail on the pipeline's data *)









(** *** How [process_casts] and the script can fail *)









